(** * Cite-Flow front end: a shallow embedding of the React client

    The repository's JavaScript sources (the [App] component, the [api]
    client, [SearchBar] and [Sidebar]) are embedded as Rocq functions:
    - JavaScript strings are [string]s holding the UTF-8 bytes of the text;
    - JavaScript numbers are IEEE-754 binary64 values, Rocq's [float];
      pixel counts ([window.innerWidth] and the like) are integers, [Z];
    - [undefined] is [None];
    - [async] handlers run in a state-and-exception monad over a [World]
      that carries the React state, the requests sent and the dialogs shown;
      a handler runs to its end, and what other handlers might do while it
      awaits a response is left out.

    The Python back end (coupling scores, ring layout) is not part of the
    sources at hand; what is proved about it is proved of a model written
    from the design document, in [CouplingScorer] and [Layout]. *)

From Stdlib Require Import ZArith QArith Reals Lra List String Ascii Bool Lia Floats DecimalString.
From stdpp Require Import base strings gmap sorting.
Import ListNotations.

Local Open Scope string_scope.
Local Open Scope Z_scope.

(** ** JavaScript strings *)

Module JsString.

(** The string whose bytes are the given numbers. *)
Definition bytes (l : list nat) : string :=
  string_of_list_ascii (map ascii_of_nat l).

(** ECMAScript [WhiteSpace] and [LineTerminator] code points, each as its
    UTF-8 encoding: TAB, LF, VT, FF, CR, SP, U+00A0, U+1680, U+2000 to
    U+200A, U+2028, U+2029, U+202F, U+205F, U+3000 and U+FEFF. *)
Definition white_space : list string :=
  [ bytes [9]; bytes [10]; bytes [11]; bytes [12]; bytes [13]; bytes [32];
    bytes [194; 160];
    bytes [225; 154; 128];
    bytes [226; 128; 128]; bytes [226; 128; 129]; bytes [226; 128; 130];
    bytes [226; 128; 131]; bytes [226; 128; 132]; bytes [226; 128; 133];
    bytes [226; 128; 134]; bytes [226; 128; 135]; bytes [226; 128; 136];
    bytes [226; 128; 137]; bytes [226; 128; 138];
    bytes [226; 128; 168]; bytes [226; 128; 169]; bytes [226; 128; 175];
    bytes [226; 129; 159];
    bytes [227; 128; 128];
    bytes [239; 187; 191] ]%nat.

Fixpoint strip_prefix (p s : string) : option string :=
  match p with
  | EmptyString => Some s
  | String a p' =>
      match s with
      | String b s' => if Ascii.eqb a b then strip_prefix p' s' else None
      | EmptyString => None
      end
  end.

(** Removes one leading code point out of [units], if there is one. *)
Fixpoint strip_one (units : list string) (s : string) : option string :=
  match units with
  | [] => None
  | u :: us =>
      match strip_prefix u s with
      | Some r => Some r
      | None => strip_one us s
      end
  end.

Fixpoint strip_all (units : list string) (fuel : nat) (s : string) : string :=
  match fuel with
  | O => s
  | S fuel' =>
      match strip_one units s with
      | Some r => strip_all units fuel' r
      | None => s
      end
  end.

Fixpoint rev_string (acc s : string) : string :=
  match s with
  | EmptyString => acc
  | String c s' => rev_string (String c acc) s'
  end.

Definition reverse (s : string) : string := rev_string EmptyString s.

(** [String.prototype.trimStart], [trimEnd] and [trim]. *)
Definition trimStart (s : string) : string :=
  strip_all white_space (String.length s) s.

Definition trimEnd (s : string) : string :=
  reverse (strip_all (map reverse white_space) (String.length s) (reverse s)).

Definition trim (s : string) : string := trimEnd (trimStart s).

(** A string is truthy unless it is empty. *)
Definition truthy (s : string) : bool :=
  match s with EmptyString => false | String _ _ => true end.

(** [v || d] for a string-or-undefined [v]. *)
Definition or_else (v : option string) (d : string) : string :=
  match v with
  | Some s => if truthy s then s else d
  | None => d
  end.

(** Strings made of white space only. *)
Inductive AllWhite : string -> Prop :=
| AllWhite_empty : AllWhite EmptyString
| AllWhite_more u s : In u white_space -> AllWhite s -> AllWhite (u ++ s).

End JsString.

(** ** JavaScript numbers *)

Module JsNumber.

Definition number := float.

Definition NaN : number := PrimFloat.nan.

(** [a >= b]: false as soon as one side is [NaN]. *)
Definition ge (a b : number) : bool := PrimFloat.leb b a.

Definition digit_of (c : ascii) : option Z :=
  let n := Z.of_nat (nat_of_ascii c) in
  if (48 <=? n) && (n <=? 57) then Some (n - 48) else None.

(** The longest run of decimal digits at the head of [s]: its value on top
    of [acc], how many digits it has, and what follows it. *)
Fixpoint read_digits (acc : Z) (count : nat) (s : string) : Z * nat * string :=
  match s with
  | String c s' =>
      match digit_of c with
      | Some d => read_digits (10 * acc + d) (S count) s'
      | None => (acc, count, s)
      end
  | EmptyString => (acc, count, s)
  end.

Definition read_sign (s : string) : bool * string :=
  match s with
  | String "-" s' => (true, s')
  | String "+" s' => (false, s')
  | _ => (false, s)
  end.

(** [ExponentPart]: [e] or [E], an optional sign, at least one digit.
    Anything else is not part of the literal and counts as exponent 0. *)
Definition read_exponent (s : string) : Z :=
  match s with
  | String c s' =>
      if Ascii.eqb c "e" || Ascii.eqb c "E" then
        let '(neg, s'') := read_sign s' in
        let '(e, n, _) := read_digits 0 O s'' in
        match n with
        | O => 0
        | S _ => if neg then - e else e
        end
      else 0
  | EmptyString => 0
  end.

(** The binary64 value nearest to [(-1)^neg * m * 10^e10], ties to even. *)
Definition of_decimal (neg : bool) (m : Z) (e10 : Z) : number :=
  match m with
  | Zpos p =>
      if 0 <=? e10 then
        SF2Prim (binary_normalize prec emax
                   (if neg then Zneg p * 10 ^ e10 else Zpos p * 10 ^ e10) 0 false)
      else
        SF2Prim (SFdiv prec emax
                   (S754_finite neg p 0)
                   (S754_finite false (Z.to_pos (10 ^ (- e10))) 0))
  | _ => if neg then PrimFloat.neg_zero else PrimFloat.zero
  end.

(** [StrUnsignedDecimalLiteral] without its sign, at the head of [s]. *)
Definition read_unsigned (neg : bool) (s : string) : number :=
  match JsString.strip_prefix "Infinity" s with
  | Some _ => if neg then PrimFloat.neg_infinity else PrimFloat.infinity
  | None =>
      let '(i, ni, rest) := read_digits 0 O s in
      let '(m, nf, rest') :=
        match rest with
        | String "." r => read_digits i O r
        | _ => (i, O, rest)
        end in
      match ni, nf with
      | O, O => NaN
      | _, _ => of_decimal neg m (read_exponent rest' - Z.of_nat nf)
      end
  end.

(** The global [parseFloat]: leading white space is skipped, the longest
    prefix that is a decimal literal is read, [NaN] if there is none. *)
Definition parseFloat (s : string) : number :=
  let '(neg, s') := read_sign (JsString.trimStart s) in
  read_unsigned neg s'.

End JsNumber.

(** ** Data exchanged with the back end *)

Record NodeData := {
  label : string;
  year : option Z;
  abstract : option string;
  citationCount : Z;
  isSeed : bool
}.

Record Position := { pos_x : JsNumber.number; pos_y : JsNumber.number }.

Record Node := { node_id : string; data : NodeData; position : Position }.

(** An edge as React Flow holds it; [edge_label] is absent or a string. *)
Record Edge := { source : string; target : string; edge_label : option string }.

Record GraphData := { graph_nodes : list Node; graph_edges : list Edge }.

Record SearchHit := { paperId : string; title : string }.

Record SearchResults := { results : option (list SearchHit) }.

Record Summary := { summary : string }.

Record Explanation := { explanation_text : string }.

(** ** The browser: [fetch], [alert], [console] and the React state *)

Record Request := {
  method : string;
  url : string;
  headers : list (string * string);
  body : option string
}.

(** What [fetch] gets back: no answer at all, or a status line and a body
    that parses as JSON of the endpoint's shape ([None] when it does not). *)
Inductive Reply (A : Type) : Type :=
| Unreachable
| Answer (status : Z) (parsed : option A).
Arguments Unreachable {A}.
Arguments Answer {A} status parsed.

Record Response (A : Type) := { status : Z; parsed_body : option A }.
Arguments status {A} _.
Arguments parsed_body {A} _.

Record Backend := {
  serve_search : Request -> Reply SearchResults;
  serve_build_graph : Request -> Reply GraphData;
  serve_summarize_connection : Request -> Reply Summary;
  serve_explain_abstract : Request -> Reply Explanation
}.

Record World := {
  backend : Backend;
  innerWidth : Z;
  innerHeight : Z;
  sent : list Request;            (* requests issued so far, oldest first *)
  alerts : list string;
  console : list string;
  default_prevented : bool;
  (* App *)
  nodes : list Node;
  edges : list Edge;
  loading : bool;
  (* SearchBar *)
  query : string;
  searchbar_loading : bool;
  (* Sidebar *)
  explanation : option string;
  explanationCache : gmap string string;
  sidebar_loading : bool
}.

Definition with_sent (v : list Request) (w : World) : World :=
  {| backend := backend w; innerWidth := innerWidth w; innerHeight := innerHeight w;
     sent := v; alerts := alerts w; console := console w;
     default_prevented := default_prevented w;
     nodes := nodes w; edges := edges w; loading := loading w;
     query := query w; searchbar_loading := searchbar_loading w;
     explanation := explanation w; explanationCache := explanationCache w;
     sidebar_loading := sidebar_loading w |}.

Definition with_alerts (v : list string) (w : World) : World :=
  {| backend := backend w; innerWidth := innerWidth w; innerHeight := innerHeight w;
     sent := sent w; alerts := v; console := console w;
     default_prevented := default_prevented w;
     nodes := nodes w; edges := edges w; loading := loading w;
     query := query w; searchbar_loading := searchbar_loading w;
     explanation := explanation w; explanationCache := explanationCache w;
     sidebar_loading := sidebar_loading w |}.

Definition with_console (v : list string) (w : World) : World :=
  {| backend := backend w; innerWidth := innerWidth w; innerHeight := innerHeight w;
     sent := sent w; alerts := alerts w; console := v;
     default_prevented := default_prevented w;
     nodes := nodes w; edges := edges w; loading := loading w;
     query := query w; searchbar_loading := searchbar_loading w;
     explanation := explanation w; explanationCache := explanationCache w;
     sidebar_loading := sidebar_loading w |}.

Definition with_default_prevented (v : bool) (w : World) : World :=
  {| backend := backend w; innerWidth := innerWidth w; innerHeight := innerHeight w;
     sent := sent w; alerts := alerts w; console := console w;
     default_prevented := v;
     nodes := nodes w; edges := edges w; loading := loading w;
     query := query w; searchbar_loading := searchbar_loading w;
     explanation := explanation w; explanationCache := explanationCache w;
     sidebar_loading := sidebar_loading w |}.

Definition with_nodes (v : list Node) (w : World) : World :=
  {| backend := backend w; innerWidth := innerWidth w; innerHeight := innerHeight w;
     sent := sent w; alerts := alerts w; console := console w;
     default_prevented := default_prevented w;
     nodes := v; edges := edges w; loading := loading w;
     query := query w; searchbar_loading := searchbar_loading w;
     explanation := explanation w; explanationCache := explanationCache w;
     sidebar_loading := sidebar_loading w |}.

Definition with_edges (v : list Edge) (w : World) : World :=
  {| backend := backend w; innerWidth := innerWidth w; innerHeight := innerHeight w;
     sent := sent w; alerts := alerts w; console := console w;
     default_prevented := default_prevented w;
     nodes := nodes w; edges := v; loading := loading w;
     query := query w; searchbar_loading := searchbar_loading w;
     explanation := explanation w; explanationCache := explanationCache w;
     sidebar_loading := sidebar_loading w |}.

Definition with_loading (v : bool) (w : World) : World :=
  {| backend := backend w; innerWidth := innerWidth w; innerHeight := innerHeight w;
     sent := sent w; alerts := alerts w; console := console w;
     default_prevented := default_prevented w;
     nodes := nodes w; edges := edges w; loading := v;
     query := query w; searchbar_loading := searchbar_loading w;
     explanation := explanation w; explanationCache := explanationCache w;
     sidebar_loading := sidebar_loading w |}.

Definition with_searchbar_loading (v : bool) (w : World) : World :=
  {| backend := backend w; innerWidth := innerWidth w; innerHeight := innerHeight w;
     sent := sent w; alerts := alerts w; console := console w;
     default_prevented := default_prevented w;
     nodes := nodes w; edges := edges w; loading := loading w;
     query := query w; searchbar_loading := v;
     explanation := explanation w; explanationCache := explanationCache w;
     sidebar_loading := sidebar_loading w |}.

Definition with_explanation (v : option string) (w : World) : World :=
  {| backend := backend w; innerWidth := innerWidth w; innerHeight := innerHeight w;
     sent := sent w; alerts := alerts w; console := console w;
     default_prevented := default_prevented w;
     nodes := nodes w; edges := edges w; loading := loading w;
     query := query w; searchbar_loading := searchbar_loading w;
     explanation := v; explanationCache := explanationCache w;
     sidebar_loading := sidebar_loading w |}.

Definition with_explanationCache (v : gmap string string) (w : World) : World :=
  {| backend := backend w; innerWidth := innerWidth w; innerHeight := innerHeight w;
     sent := sent w; alerts := alerts w; console := console w;
     default_prevented := default_prevented w;
     nodes := nodes w; edges := edges w; loading := loading w;
     query := query w; searchbar_loading := searchbar_loading w;
     explanation := explanation w; explanationCache := v;
     sidebar_loading := sidebar_loading w |}.

Definition with_sidebar_loading (v : bool) (w : World) : World :=
  {| backend := backend w; innerWidth := innerWidth w; innerHeight := innerHeight w;
     sent := sent w; alerts := alerts w; console := console w;
     default_prevented := default_prevented w;
     nodes := nodes w; edges := edges w; loading := loading w;
     query := query w; searchbar_loading := searchbar_loading w;
     explanation := explanation w; explanationCache := explanationCache w;
     sidebar_loading := v |}.

(** ** Handlers as computations: state threaded through, exceptions as values *)

Inductive Outcome (A : Type) : Type :=
| Returned (a : A)
| Thrown (message : string).
Arguments Returned {A} a.
Arguments Thrown {A} message.

Definition M (A : Type) : Type := World -> Outcome A * World.

Definition ret {A} (a : A) : M A := fun w => (Returned a, w).

Definition bind {A B} (m : M A) (k : A -> M B) : M B :=
  fun w =>
    match m w with
    | (Returned a, w') => k a w'
    | (Thrown e, w') => (Thrown e, w')
    end.

Definition throw {A} (message : string) : M A := fun w => (Thrown message, w).

Definition gets {A} (f : World -> A) : M A := fun w => (Returned (f w), w).

Definition modify (f : World -> World) : M unit := fun w => (Returned tt, f w).

(** [try { body } catch (e) { handler e } finally { cleanup }] *)
Definition try_catch_finally {A} (body : M A) (handler : string -> M A)
    (cleanup : M unit) : M A :=
  fun w =>
    let '(r, w1) :=
      match body w with
      | (Returned a, w') => (Returned a, w')
      | (Thrown e, w') => handler e w'
      end in
    match cleanup w1 with
    | (Returned _, w2) => (r, w2)
    | (Thrown e, w2) => (Thrown e, w2)
    end.

(** [try { body } finally { cleanup }] *)
Definition try_finally {A} (body : M A) (cleanup : M unit) : M A :=
  fun w =>
    let '(r, w1) := body w in
    match cleanup w1 with
    | (Returned _, w2) => (r, w2)
    | (Thrown e, w2) => (Thrown e, w2)
    end.

Declare Scope js_scope.
Delimit Scope js_scope with js.
Notation "'let*' v ':=' m 'in' k" := (bind m (fun v => k))
  (at level 10, v name, m at level 100, k at level 200) : js_scope.
Notation "m ';;' k" := (bind m (fun _ => k))
  (at level 100, k at level 200, right associativity) : js_scope.
Local Open Scope js_scope.

Definition alert (message : string) : M unit :=
  modify (fun w => with_alerts (alerts w ++ [message]) w).

Definition console_error (message : string) : M unit :=
  modify (fun w => with_console (console w ++ [message]) w).

(** The world once [req] has gone out. *)
Definition transmitted (req : Request) (w : World) : World :=
  with_sent (sent w ++ [req]) w.

(** [fetch]: the request goes out, then the promise rejects when the server
    cannot be reached and resolves with the response otherwise. [serve] is
    the handler of the endpoint the URL names. *)
Definition fetch {A} (serve : Backend -> Request -> Reply A) (req : Request)
    : M (Response A) :=
  fun w =>
    let w' := transmitted req w in
    match serve (backend w) req with
    | Unreachable => (Thrown "Failed to fetch", w')
    | Answer st j => (Returned {| status := st; parsed_body := j |}, w')
    end.

(** [response.ok]: the status is in the range 200 to 299. *)
Definition ok {A} (r : Response A) : bool :=
  (200 <=? status r) && (status r <=? 299).

(** [response.json()] *)
Definition json {A} (r : Response A) : M A :=
  match parsed_body r with
  | Some a => ret a
  | None => throw "Unexpected token in JSON"
  end.

(** ** [api]: the HTTP client *)

Module api.

Definition API_BASE_URL : string := "http://localhost:8000".

Definition GET (u : string) : Request :=
  {| method := "GET"; url := u; headers := []; body := None |}.

(** A number in a template literal: an integer below 10^21 in absolute
    value prints as its plain decimal numeral, with [-] when negative. *)
Definition show (n : Z) : string := NilZero.string_of_int (Z.to_int n).

(** [v || d] for a number-or-undefined [v]: 0 is falsy, as [undefined] is. *)
Definition or_else (v : option Z) (d : Z) : Z :=
  match v with
  | Some n => if n =? 0 then d else n
  | None => d
  end.

Definition hex_digit (n : nat) : ascii :=
  ascii_of_nat (if Nat.ltb n 10 then 48 + n else 55 + n)%nat.

(** Characters [encodeURIComponent] leaves alone: letters, digits and
    [- _ . ! ~ * ' ( )]. *)
Definition unreserved (c : ascii) : bool :=
  let n := nat_of_ascii c in
  ((Nat.leb 65 n && Nat.leb n 90) || (Nat.leb 97 n && Nat.leb n 122)
   || (Nat.leb 48 n && Nat.leb n 57)
   || existsb (Nat.eqb n) [45; 95; 46; 33; 126; 42; 39; 40; 41]%nat)%bool.

Fixpoint encodeURIComponent (s : string) : string :=
  match s with
  | EmptyString => EmptyString
  | String c s' =>
      if unreserved c then String c (encodeURIComponent s')
      else
        let n := nat_of_ascii c in
        String "%" (String (hex_digit (n / 16)) (String (hex_digit (n mod 16))
          (encodeURIComponent s')))
  end.

Definition search_request (q : string) : Request :=
  GET (API_BASE_URL ++ "/search?query=" ++ encodeURIComponent q).

Definition search (q : string) : M SearchResults :=
  let* response := fetch serve_search (search_request q) in
  if negb (ok response) then throw "Search failed"
  else json response.

Definition buildGraph_request (paperId : string) (width height : option Z) : Request :=
  (* Default to a reasonable size if not provided *)
  let w := or_else width 1000 in
  let h := or_else height 1000 in
  GET (API_BASE_URL ++ "/build_graph?paper_id=" ++ paperId
         ++ "&width=" ++ show w ++ "&height=" ++ show h).

Definition buildGraph (paperId : string) (width height : option Z) : M GraphData :=
  let* response := fetch serve_build_graph (buildGraph_request paperId width height) in
  if negb (ok response) then throw "Failed to build graph"
  else json response.

(** ** [JSON.stringify] of an object whose values are strings *)

Definition double_quote : string := String (ascii_of_nat 34) EmptyString.

Definition lower_hex_digit (n : nat) : ascii :=
  ascii_of_nat (if Nat.ltb n 10 then 48 + n else 87 + n)%nat.

Definition escape_char (c : ascii) : string :=
  let n := nat_of_ascii c in
  if Nat.eqb n 34 then "\" ++ double_quote
  else if Nat.eqb n 92 then "\\"
  else if Nat.eqb n 8 then "\b"
  else if Nat.eqb n 12 then "\f"
  else if Nat.eqb n 10 then "\n"
  else if Nat.eqb n 13 then "\r"
  else if Nat.eqb n 9 then "\t"
  else if Nat.ltb n 32 then
    "\u00" ++ String (lower_hex_digit (n / 16))
               (String (lower_hex_digit (n mod 16)) EmptyString)
  else String c EmptyString.

Fixpoint escape (s : string) : string :=
  match s with
  | EmptyString => EmptyString
  | String c s' => escape_char c ++ escape s'
  end.

Definition quote (s : string) : string := double_quote ++ escape s ++ double_quote.

Fixpoint stringify_fields (fields : list (string * string)) : string :=
  match fields with
  | [] => EmptyString
  | [(k, v)] => quote k ++ ":" ++ quote v
  | (k, v) :: rest => quote k ++ ":" ++ quote v ++ "," ++ stringify_fields rest
  end.

Definition JSON_stringify (fields : list (string * string)) : string :=
  "{" ++ stringify_fields fields ++ "}".

Definition summarizeConnection_request (sourceAbstract targetAbstract : string) : Request :=
  {| method := "POST";
     url := API_BASE_URL ++ "/summarize_connection";
     headers := [("Content-Type", "application/json")];
     body := Some (JSON_stringify [("source_abstract", sourceAbstract);
                                   ("target_abstract", targetAbstract)]) |}.

Definition summarizeConnection (sourceAbstract targetAbstract : string) : M Summary :=
  let* response := fetch serve_summarize_connection
                     (summarizeConnection_request sourceAbstract targetAbstract) in
  if negb (ok response) then throw "Summarization failed"
  else json response.

Definition explainAbstract_request (abstract : string) : Request :=
  {| method := "POST";
     url := API_BASE_URL ++ "/explain_abstract";
     headers := [("Content-Type", "application/json")];
     body := Some (JSON_stringify [("abstract", abstract)]) |}.

Definition explainAbstract (abstract : string) : M Explanation :=
  let* response := fetch serve_explain_abstract (explainAbstract_request abstract) in
  if negb (ok response) then throw "Explanation failed"
  else json response.

End api.

(** ** [App]: search, graph state and the edge filter *)

Module App.

Definition setNodes (v : list Node) : M unit := modify (with_nodes v).
Definition setEdges (v : list Edge) : M unit := modify (with_edges v).
Definition setLoading (v : bool) : M unit := modify (with_loading v).

Definition onSearch (query : string) : M unit :=
  setLoading true;;
  try_catch_finally
    ((* 1. Search for paper to get ID *)
     let* searchRes := api.search query in
     match results searchRes with
     | Some (first :: _) =>
         let paperId := paperId first in
         (* 2. Build graph with dynamic scaling *)
         let* width := gets innerWidth in
         let* height := gets innerHeight in
         let* graphData := api.buildGraph paperId (Some width) (Some height) in
         setNodes (graph_nodes graphData);;
         setEdges (graph_edges graphData)
     | Some [] | None =>
         alert "No papers found!"
     end)
    (fun error =>
       console_error error;;
       alert "Error building graph")
    (setLoading false).

Definition onBuildGraphForId (id : string) : M unit :=
  setLoading true;;
  try_catch_finally
    (let* graphData := api.buildGraph id None None in
     setNodes (graph_nodes graphData);;
     setEdges (graph_edges graphData))
    (fun err => alert "Failed to build graph")
    (setLoading false).

(** Filter edges based on threshold *)
Definition filteredEdges (edges : list Edge) (edgeThreshold : JsNumber.number)
    : list Edge :=
  List.filter
    (fun edge =>
       let weight := JsNumber.parseFloat (JsString.or_else (edge_label edge) "0") in
       JsNumber.ge weight edgeThreshold)
    edges.

(** [nodes.find(n => n.data.isSeed)] *)
Definition seedNode (nodes : list Node) : option Node :=
  List.find (fun n => isSeed (data n)) nodes.

End App.

(** What a failed and a successful search leave behind, as worlds. *)
Definition report_failure (error : string) (w : World) : World :=
  with_alerts (alerts w ++ ["Error building graph"]) (with_console (console w ++ [error]) w).

Definition show_graph (g : GraphData) (w : World) : World :=
  with_edges (graph_edges g) (with_nodes (graph_nodes g) w).

(** ** [SearchBar] *)

Module SearchBar.

Definition setLoading (v : bool) : M unit := modify (with_searchbar_loading v).

Definition handleSubmit (onSearch : string -> M unit) : M unit :=
  modify (with_default_prevented true);;
  let* query := gets query in
  if negb (JsString.truthy (JsString.trim query)) then ret tt
  else
    setLoading true;;
    try_finally (onSearch query) (setLoading false).

End SearchBar.

(** ** [Sidebar] *)

Module Sidebar.

Definition setExplanation (v : option string) : M unit := modify (with_explanation v).
Definition setLoading (v : bool) : M unit := modify (with_sidebar_loading v).

Definition handleExplain (seedNode : option Node) (selectedNode : Node) : M unit :=
  (* Context: We need the Seed Abstract. *)
  let seedAbstract :=
    JsString.or_else (match seedNode with
                      | Some n => abstract (data n)
                      | None => None
                      end)
      "No abstract available for seed paper." in
  let targetAbstract :=
    JsString.or_else (abstract (data selectedNode)) "No abstract available." in
  setLoading true;;
  try_catch_finally
    (let* res := api.summarizeConnection seedAbstract targetAbstract in
     setExplanation (Some (summary res));;
     (* Cache the result *)
     if JsString.truthy (node_id selectedNode) then
       modify (fun w => with_explanationCache
                          (<[node_id selectedNode := summary res]> (explanationCache w)) w)
     else ret tt)
    (fun err =>
       setExplanation (Some "Failed to generate explanation. Please try again."))
    (setLoading false).

(** What [{explanation && <p>{explanation}</p>}] renders. *)
Definition shown_explanation (w : World) : option string :=
  match explanation w with
  | Some s => if JsString.truthy s then Some s else None
  | None => None
  end.

End Sidebar.

(** ** The back end's coupling scorer *)

Module CouplingScorer.

(** Modelled from the spec: the Paper entity of section 3, as far as the
    scorer reads it; its reference ids are a set. *)
Record Paper := { paper_id : string; referenceIds : gset string }.

(** Modelled from the spec: the back end's coupling score (section 4.3),
    whose Python source is missing here. The number of shared references
    over the size of the smaller reference set, 0 if either set is empty. *)
Definition coupling (a b : Paper) : Q :=
  let ra := referenceIds a in
  let rb := referenceIds b in
  if decide (ra = ∅ ∨ rb = ∅) then 0%Q
  else (Z.of_nat (size (ra ∩ rb)) # Pos.of_nat (Nat.min (size ra) (size rb)))%Q.

End CouplingScorer.

(** ** The back end's initial layout *)

Module Layout.

Local Open Scope R_scope.

(** Modelled from the spec: a node position, section 3. *)
Record Point := { px : R; py : R }.

(** Modelled from the spec: a GraphNode of section 3, as far as the layout
    sets it. *)
Record Placed := { placed_id : string; placed_isSeed : bool; placed_at : Point }.

(** Modelled from the spec: [build_graph]'s handling of the canvas size
    (section 4.5), whose Python source is missing here. A dimension that
    is absent or not positive is replaced by 1000. *)
Definition canvas (d : option Z) : Z :=
  match d with
  | Some n => if (0 <? n)%Z then n else 1000%Z
  | None => 1000%Z
  end.

(** Modelled from the spec: the canvas centre [(width/2, height/2)] of
    section 4.4. *)
Definition center (width height : Z) : Point :=
  {| px := IZR width / 2; py := IZR height / 2 |}.

(** Modelled from the spec: the Euclidean distance of section 8. *)
Definition distance (p q : Point) : R :=
  R_sqrt.sqrt ((px p - px q) * (px p - px q) + (py p - py q) * (py p - py q)).

(** Modelled from the spec: the bound [min(width, height) * 0.45] of
    section 4.4. *)
Definition max_radius (width height : Z) : R :=
  0.45 * Rmin (IZR width) (IZR height).

(** Modelled from the spec: the radius of ring [ringIndex] of [ringCount],
    0 being the innermost (section 4.4), whose Python source is missing
    here. The design document asks that inner rings have the smaller
    radius, that the outermost ring stays within
    [min(width, height) * 0.45] of the centre and (section 8) that
    positions scale with the canvas; it does not fix the spacing of the
    rings. They are spaced evenly here, the outermost one on the bound. *)
Definition ring_radius (width height : Z) (ringCount ringIndex : nat) : R :=
  max_radius width height * INR (S ringIndex) / INR ringCount.

(** Modelled from the spec: the members of a ring sit on the circle of the
    ring's radius around the centre, at equal angular increments
    [2 * PI / ringSize] from the ring's angular offset (section 4.4). *)
Fixpoint place_ring (c : Point) (radius offset : R) (ringSize : nat) (i : nat)
    (ids : list string) : list Placed :=
  match ids with
  | [] => []
  | id :: rest =>
      let angle := offset + INR i * (2 * PI / INR ringSize) in
      {| placed_id := id; placed_isSeed := false;
         placed_at := {| px := px c + radius * cos angle;
                         py := py c + radius * sin angle |} |}
        :: place_ring c radius offset ringSize (S i) rest
  end.

(** Modelled from the spec: the rings from [ringIndex] outwards, each with
    the radius and the angular offset of its index. [offset] is the
    hash-derived offset per ring of section 4.4. *)
Fixpoint place_rings (width height : Z) (offset : nat -> R) (ringCount ringIndex : nat)
    (rings : list (list string)) : list Placed :=
  match rings with
  | [] => []
  | members :: outer =>
      place_ring (center width height) (ring_radius width height ringCount ringIndex)
        (offset ringIndex) (List.length members) O members
        ++ place_rings width height offset ringCount (S ringIndex) outer
  end.

(** Modelled from the spec: the layout step of [build_graph] (sections 4.4
    and 4.5), whose Python source is missing here. The seed is put at the
    canvas centre and the candidates, already grouped into rings from the
    strongest relation outwards, are put ring by ring. *)
Definition build_graph_layout (seed : string) (width height : option Z)
    (offset : nat -> R) (rings : list (list string)) : list Placed :=
  let w := canvas width in
  let h := canvas height in
  {| placed_id := seed; placed_isSeed := true; placed_at := center w h |}
    :: place_rings w h offset (List.length rings) O rings.

End Layout.

(** ** The back end's edge labels *)

Module EdgeLabel.

(** Modelled from the spec: the label of an edge is its weight formatted to
    two decimals (section 6); the formatting is done by the Python back end,
    whose source is missing here. [hundredths] is the weight times 100. *)
Definition two_decimals (hundredths : nat) : string :=
  let digit (d : nat) := String (ascii_of_nat (48 + d)) EmptyString in
  digit (hundredths / 100)%nat ++ "." ++ digit ((hundredths / 10) mod 10)%nat
    ++ digit (hundredths mod 10)%nat.

Definition weights : list nat := seq 0 101.

(** Whether reading the labels of [l] back keeps their order, pair by pair. *)
Definition order_kept (l : list nat) : bool :=
  forallb (fun j =>
    forallb (fun k =>
      Bool.eqb
        (JsNumber.ge (JsNumber.parseFloat (two_decimals k))
           (JsNumber.parseFloat (two_decimals j)))
        (Nat.leb j k))
      l)
    l.

End EdgeLabel.

(** ** Worlds to run the handlers in *)

Module Fixtures.

Definition silent : Backend :=
  {| serve_search := fun _ => Unreachable;
     serve_build_graph := fun _ => Unreachable;
     serve_summarize_connection := fun _ => Unreachable;
     serve_explain_abstract := fun _ => Unreachable |}.

Definition fresh (b : Backend) (q : string) : World :=
  {| backend := b; innerWidth := 1280; innerHeight := 720;
     sent := []; alerts := []; console := []; default_prevented := false;
     nodes := []; edges := []; loading := false;
     query := q; searchbar_loading := false;
     explanation := None; explanationCache := ∅; sidebar_loading := false |}.

Definition paper (i : string) (seed : bool) : Node :=
  {| node_id := i;
     data := {| label := i; year := Some 2017; abstract := Some "An abstract.";
                citationCount := 10; isSeed := seed |};
     position := {| pos_x := PrimFloat.zero; pos_y := PrimFloat.zero |} |}.

Definition link (t : string) (l : option string) : Edge :=
  {| source := "W1"; target := t; edge_label := l |}.

(** An edge whose label is the empty string. *)
Definition blank : Edge := link "W2" (Some "").

Definition graph : GraphData :=
  {| graph_nodes := [paper "W1" true; paper "W2" false];
     graph_edges := [link "W2" (Some "0.67")] |}.

(** A world in which the sample graph's nodes are already on display. *)
Definition showing (b : Backend) (q : string) : World :=
  with_nodes (graph_nodes graph) (fresh b q).

(** The scenario of section 8: the seed cites B and C, candidate D cites B,
    C and E. *)
Definition seed_paper : CouplingScorer.Paper :=
  {| CouplingScorer.paper_id := "A"; CouplingScorer.referenceIds := {[ "B"; "C" ]} |}.

Definition candidate : CouplingScorer.Paper :=
  {| CouplingScorer.paper_id := "D"; CouplingScorer.referenceIds := {[ "B"; "C"; "E" ]} |}.

Definition two_rings : list (list string) := [ ["B"; "C"]; ["D"] ].

(** A back end that finds one paper and answers every other call with
    the given status. *)
Definition answering (st : Z) : Backend :=
  {| serve_search := fun _ =>
       Answer 200 (Some {| results := Some [{| paperId := "W1"; title := "Seed" |}] |});
     serve_build_graph := fun _ => Answer st (Some graph);
     serve_summarize_connection := fun _ => Answer st (Some {| summary := "Both cite X." |});
     serve_explain_abstract := fun _ => Answer st (Some {| explanation_text := "Plainly." |}) |}.

End Fixtures.

(** ** What the handlers leave behind *)

(** The cache after an explanation came back: written under the node's id
    when that id is truthy. *)
Definition Sidebar_remember (i summary : string) (w : World) : World :=
  if JsString.truthy i
  then with_explanationCache (<[i := summary]> (explanationCache w)) w
  else w.

(** ** Where the model and the browser agree *)

(** [response.json()] throws on a body that is not JSON and returns any
    JSON value, of the endpoint's shape or not; [json] throws on both kinds
    of body that do not parse to the endpoint's shape. The two agree on a
    reply that is [in_shape]: one whose body, when the status is in the
    range 200 to 299, is of the endpoint's shape. *)
Definition in_shape {A} (r : Reply A) : bool :=
  match r with
  | Answer st None => negb ((200 <=? st) && (st <=? 299))
  | _ => true
  end.

Module Utf8.

Definition between (lo hi n : nat) : bool := Nat.leb lo n && Nat.leb n hi.

(** The ranges of the bytes that must follow a first byte, after the table
    of well-formed UTF-8 byte sequences of the Unicode standard; [None] for
    a byte that cannot come first. *)
Definition trail (n : nat) : option (list (nat * nat)) :=
  if Nat.leb n 127 then Some []
  else if between 194 223 n then Some [(128, 191)]%nat
  else if Nat.eqb n 224 then Some [(160, 191); (128, 191)]%nat
  else if between 225 236 n || between 238 239 n then Some [(128, 191); (128, 191)]%nat
  else if Nat.eqb n 237 then Some [(128, 159); (128, 191)]%nat
  else if Nat.eqb n 240 then Some [(144, 191); (128, 191); (128, 191)]%nat
  else if between 241 243 n then Some [(128, 191); (128, 191); (128, 191)]%nat
  else if Nat.eqb n 244 then Some [(128, 143); (128, 191); (128, 191)]%nat
  else None.

Fixpoint well_formed_from (pending : list (nat * nat)) (s : string) : bool :=
  match s with
  | EmptyString => match pending with [] => true | _ :: _ => false end
  | String c r =>
      match pending with
      | (lo, hi) :: more => between lo hi (nat_of_ascii c) && well_formed_from more r
      | [] =>
          match trail (nat_of_ascii c) with
          | Some more => well_formed_from more r
          | None => false
          end
      end
  end.

(** The bytes are the UTF-8 form of a text. A JavaScript string is such a
    text unless it holds a surrogate without its pair, which has no UTF-8
    form (the bytes 237, 160 to 191 are excluded); on such a string the
    built-in [encodeURIComponent] throws [URIError], on every other it
    escapes the UTF-8 bytes as [api.encodeURIComponent] does. *)
Definition well_formed (s : string) : bool := well_formed_from [] s.

End Utf8.

(** ** Strings cut into pieces *)

(** [Tiled units s]: [s] is a run of strings taken from [units]. *)
Inductive Tiled (units : list string) : string -> Prop :=
| Tiled_empty : Tiled units EmptyString
| Tiled_more u s : In u units -> Tiled units s -> Tiled units (u ++ s).

(** ** Reading a JSON string back *)

Module JsonReader.

Definition hex_value (c : ascii) : option nat :=
  let n := nat_of_ascii c in
  if Nat.leb 48 n && Nat.leb n 57 then Some (n - 48)%nat
  else if Nat.leb 97 n && Nat.leb n 102 then Some (n - 87)%nat
  else if Nat.leb 65 n && Nat.leb n 70 then Some (n - 55)%nat
  else None.

Definition push (c : ascii) (read : option (string * string)) : option (string * string) :=
  match read with
  | Some (s, rest) => Some (String c s, rest)
  | None => None
  end.

(** Reads the inside of a JSON string up to its closing quote, undoing the
    escapes, and gives what follows the quote as well. *)
Fixpoint read_string (s : string) : option (string * string) :=
  match s with
  | EmptyString => None
  | String c r =>
      if Nat.eqb (nat_of_ascii c) 34 then Some (EmptyString, r)
      else if Nat.eqb (nat_of_ascii c) 92 then
        match r with
        | String e r1 =>
            let n := nat_of_ascii e in
            if Nat.eqb n 34 then push (ascii_of_nat 34) (read_string r1)
            else if Nat.eqb n 92 then push (ascii_of_nat 92) (read_string r1)
            else if Nat.eqb n 47 then push (ascii_of_nat 47) (read_string r1)
            else if Nat.eqb n 98 then push (ascii_of_nat 8) (read_string r1)
            else if Nat.eqb n 102 then push (ascii_of_nat 12) (read_string r1)
            else if Nat.eqb n 110 then push (ascii_of_nat 10) (read_string r1)
            else if Nat.eqb n 114 then push (ascii_of_nat 13) (read_string r1)
            else if Nat.eqb n 116 then push (ascii_of_nat 9) (read_string r1)
            else if Nat.eqb n 117 then
              match r1 with
              | String z1 (String z2 (String h1 (String h2 r5))) =>
                  match hex_value z1, hex_value z2, hex_value h1, hex_value h2 with
                  | Some 0%nat, Some 0%nat, Some a, Some b =>
                      push (ascii_of_nat (16 * a + b)) (read_string r5)
                  | _, _, _, _ => None
                  end
              | _ => None
              end
            else None
        | EmptyString => None
        end
      else push c (read_string r)
  end.

End JsonReader.

(** ** [App], the revision with a timeline view *)

Module Timeline.

Inductive LayoutMode := force | timeline.

(** A node as React Flow holds it in this revision: a paper from the back
    end, with the [draggable] property once a layout has set it, or one of
    the year labels of the timeline. A label's id is [year-label-] and its
    year; its [data] is the year, it cannot be selected and has a fixed
    style. *)
Inductive FlowNode :=
| Paper (n : Node) (draggable : option bool)
| YearLabel (year : Z) (at_position : Position) (draggable : bool).

Definition flow_id (node : FlowNode) : string :=
  match node with
  | Paper n _ => node_id n
  | YearLabel y _ _ => "year-label-" ++ api.show y
  end.

Definition flow_position (node : FlowNode) : Position :=
  match node with
  | Paper n _ => position n
  | YearLabel _ p _ => p
  end.

(** [parseInt(node.data.year) || 0]: the year when the back end gave one, 0
    when it is null or, as for a label, not there. *)
Definition parsed_year (node : FlowNode) : Z :=
  match node with
  | Paper n _ => match year (data n) with Some y => y | None => 0 end
  | YearLabel _ _ _ => 0
  end.

(** [n.id.startsWith('year-label-')] *)
Definition is_label (node : FlowNode) : bool :=
  String.prefix "year-label-" (flow_id node).

(** An integer as a JavaScript number; exact up to 2^53. *)
Definition of_int (z : Z) : JsNumber.number :=
  SF2Prim (binary_normalize prec emax z 0 false).

Definition YEAR_SPACING : Z := 250.
Definition COLUMN_SPACING : Z := 100.

(** 1. Group nodes by year. [nodesByYear] is the object keyed by year,
    [minYear] starts at [Infinity], here [None]; [maxYear] is computed by
    the source and never read. *)
Definition group (nodesByYear : gmap Z (list FlowNode)) (node : FlowNode)
    : gmap Z (list FlowNode) :=
  let year := parsed_year node in
  if 1900 <? year (* Filter out invalid/missing years *)
  then <[year := (default [] (nodesByYear !! year) ++ [node])%list]> nodesByYear
  else nodesByYear.

Definition lower (minYear : option Z) (node : FlowNode) : option Z :=
  let year := parsed_year node in
  if 1900 <? year then
    match minYear with
    | Some m => if year <? m then Some year else minYear
    | None => Some year
    end
  else minYear.

(** Whether a node has a valid year, and that year is [y]. *)
Definition of_year (y : Z) (n : FlowNode) : bool :=
  (1900 <? parsed_year n) && (parsed_year n =? y).

Definition nodesByYear_of (nodes : list FlowNode) : gmap Z (list FlowNode) :=
  fold_left group nodes ∅.

Definition minYear_of (nodes : list FlowNode) : option Z :=
  fold_left lower nodes None.

(** [Object.keys(nodesByYear).sort((a, b) => a - b)] *)
Definition years_of (nodesByYear : gmap Z (list FlowNode)) : list Z :=
  merge_sort Z.le (map fst (map_to_list nodesByYear)).

(** Map year -> index (0, 1, 2...) *)
Fixpoint number (index : nat) (years : list Z) (yearToIndex : gmap Z nat)
    : gmap Z nat :=
  match years with
  | [] => yearToIndex
  | year :: rest => number (S index) rest (<[year := index]> yearToIndex)
  end.

Definition yearToIndex_of (years : list Z) : gmap Z nat := number O years ∅.

(** [Array.prototype.findIndex]: the first index where [p] holds, else -1. *)
Fixpoint findIndex (p : FlowNode -> bool) (l : list FlowNode) : Z :=
  match l with
  | [] => -1
  | n :: rest =>
      if p n then 0
      else let i := findIndex p rest in if i <? 0 then -1 else i + 1
  end.

(** [yearIndex * YEAR_SPACING], with the ordinal index of the year. *)
Definition column (yearToIndex : gmap Z nat) (year : Z) : option Z :=
  match yearToIndex !! year with
  | Some yearIndex => Some (Z.of_nat yearIndex * YEAR_SPACING)
  | None => None
  end.

(** Y position: centred on 0 by the number of nodes in that year. *)
Definition row (papersInYear : list FlowNode) (id : string) : Z :=
  let indexInYear := findIndex (fun n => String.eqb (flow_id n) id) papersInYear in
  let totalHeight := (Z.of_nat (List.length papersInYear) - 1) * COLUMN_SPACING in
  let startY := (- totalHeight) / 2 in
  startY + indexInYear * COLUMN_SPACING.

Definition number_or_NaN (v : option Z) : JsNumber.number :=
  match v with
  | Some z => of_int z
  | None => JsNumber.NaN
  end.

Definition move (n : Node) (p : Position) : Node :=
  {| node_id := node_id n; data := data n; position := p |}.

(** The callback of [nodes.map]; [None] stands for the [TypeError] of
    reading [findIndex] off a year that has no entry. *)
Definition place (nodesByYear : gmap Z (list FlowNode)) (yearToIndex : gmap Z nat)
    (node : FlowNode) : option FlowNode :=
  match node with
  | YearLabel _ _ _ => Some node
  | Paper n _ =>
      let year := parsed_year node in
      (* If node has no valid year, we might pile them at the start or end *)
      if year <=? 1900 then Some node
      else
        let x := number_or_NaN (column yearToIndex year) in
        match nodesByYear !! year with
        | Some papersInYear =>
            let y := of_int (row papersInYear (flow_id node)) in
            Some (Paper (move n {| pos_x := x; pos_y := y |}) (Some false))
        | None => None
        end
  end.

(** Where a node lands on the timeline grid: its column and its row. *)
Definition spot (nodes : list FlowNode) (node : FlowNode) : option (Z * Z) :=
  let nodesByYear := nodesByYear_of nodes in
  let year := parsed_year node in
  match column (yearToIndex_of (years_of nodesByYear)) year, nodesByYear !! year with
  | Some x, Some papersInYear => Some (x, row papersInYear (flow_id node))
  | _, _ => None
  end.

(** Create label nodes for each year, placed below the graph. *)
Definition label_node (yearToIndex : gmap Z nat) (year : Z) : FlowNode :=
  YearLabel year
    {| pos_x := number_or_NaN (column yearToIndex year); pos_y := of_int 400 |}
    false.

Definition getTimelineLayout (nodes : list FlowNode) : option (list FlowNode) :=
  let nodesByYear := nodesByYear_of nodes in
  match minYear_of nodes with
  | None => Some nodes (* No valid dates found *)
  | Some _ =>
      let years := years_of nodesByYear in
      let yearToIndex := yearToIndex_of years in
      match mapM (place nodesByYear yearToIndex) nodes with
      | Some timelineNodes => Some (timelineNodes ++ map (label_node yearToIndex) years)%list
      | None => None
      end
  end.

(** The state [toggleLayout] reads and writes; the viewport it re-centres
    afterwards is not part of it. *)
Record State := {
  flow_nodes : list FlowNode;
  layoutMode : LayoutMode;
  defaultNodePositions : gmap string Position
}.

(** 1. Save current "Force" positions *)
Definition save (saved : gmap string Position) (n : FlowNode) : gmap string Position :=
  if negb (is_label n) then <[flow_id n := flow_position n]> saved else saved.

(** [{...n, position: savedPos || n.position, draggable: true}] *)
Definition restore (saved : gmap string Position) (n : FlowNode) : FlowNode :=
  let p := default (flow_position n) (saved !! flow_id n) in
  match n with
  | Paper m _ => Paper (move m p) (Some true)
  | YearLabel y _ _ => YearLabel y p true
  end.

Definition papers_only (nodes : list FlowNode) : list FlowNode :=
  List.filter (fun n => negb (is_label n)) nodes.

Definition toggleLayout (s : State) : option State :=
  match layoutMode s with
  | force =>
      (* Switch to Timeline *)
      let saved := fold_left save (flow_nodes s) (defaultNodePositions s) in
      match getTimelineLayout (papers_only (flow_nodes s)) with
      | Some timelineNodes =>
          Some {| flow_nodes := timelineNodes; layoutMode := timeline;
                  defaultNodePositions := saved |}
      | None => None
      end
  | timeline =>
      (* Switch back to Force; filter out label nodes first *)
      let paperNodes := papers_only (flow_nodes s) in
      Some {| flow_nodes := map (restore (defaultNodePositions s)) paperNodes;
              layoutMode := force;
              defaultNodePositions := defaultNodePositions s |}
  end.

(** A node let loose again: as it was, and draggable. *)
Definition released (n : FlowNode) : FlowNode :=
  match n with
  | Paper m _ => Paper m (Some true)
  | YearLabel y p _ => YearLabel y p true
  end.

(** Four papers, two of them from 2017, one from 2015, one without a year. *)
Definition dated (i : string) (y : option Z) : FlowNode :=
  Paper {| node_id := i;
           data := {| label := i; year := y; abstract := None;
                      citationCount := 0; isSeed := false |};
           position := {| pos_x := of_int 7; pos_y := of_int 9 |} |} None.

Definition sample : list FlowNode :=
  [dated "W1" (Some 2017); dated "W2" (Some 2015); dated "W3" None; dated "W4" (Some 2017)].

Definition sample_state : State :=
  {| flow_nodes := sample; layoutMode := force; defaultNodePositions := ∅ |}.

End Timeline.

(** ** More worlds *)

Module Scenes.

(** A back end that turns every request away with status 503. *)
Definition overloaded : Backend :=
  {| serve_search := fun _ => Answer 503 None;
     serve_build_graph := fun _ => Answer 503 None;
     serve_summarize_connection := fun _ => Answer 503 None;
     serve_explain_abstract := fun _ => Answer 503 None |}.

End Scenes.

(** * Properties *)

(** ** The edge filter *)

Lemma or_else_cases (v : option string) (d : string) :
  JsString.or_else v d =
  match v with
  | None | Some EmptyString => d
  | Some l => l
  end.
Proof. destruct v as [[|c l]|]; reflexivity. Qed.

Lemma filteredEdges_In (edges : list Edge) (t : JsNumber.number) (e : Edge) :
  In e (App.filteredEdges edges t) <->
  In e edges /\
  JsNumber.ge (JsNumber.parseFloat (JsString.or_else (edge_label e) "0")) t = true.
Proof. unfold App.filteredEdges. rewrite List.filter_In. reflexivity. Qed.

(** An edge is shown exactly when its label, read by [parseFloat] with "0"
    standing in for a label that is missing or empty, is at least the
    threshold (claim C1, amended). *)
Theorem filteredEdges_keeps_exactly (edges : list Edge) (t : JsNumber.number) (e : Edge) :
  In e (App.filteredEdges edges t) <->
  In e edges /\
  JsNumber.ge
    (JsNumber.parseFloat
       match edge_label e with
       | None | Some EmptyString => "0"
       | Some l => l
       end) t = true.
Proof.
  rewrite filteredEdges_In, or_else_cases. reflexivity.
Qed.

(** An edge whose label is the empty string is shown at threshold 0, although
    [parseFloat] of its label is [NaN], which is not at least 0: reading only
    a missing label as "0" does not describe the filter (claim C1 as stated,
    refuted). *)
Lemma filteredEdges_empty_label_shown :
  ~ (In Fixtures.blank (App.filteredEdges [Fixtures.blank] PrimFloat.zero) <->
     In Fixtures.blank [Fixtures.blank] /\
     JsNumber.ge
       match edge_label Fixtures.blank with
       | Some l => JsNumber.parseFloat l
       | None => JsNumber.parseFloat "0"
       end PrimFloat.zero = true).
Proof.
  intros [shown _].
  assert (kept : In Fixtures.blank (App.filteredEdges [Fixtures.blank] PrimFloat.zero)).
  { vm_compute. left. reflexivity. }
  destruct (shown kept) as [_ parsed].
  vm_compute in parsed. discriminate parsed.
Qed.

(** A label that is a plain decimal string is read as that number. *)
Lemma filteredEdges_decimal_label (edges : list Edge) (t : JsNumber.number) (e : Edge)
    (c : ascii) (l : string) :
  edge_label e = Some (String c l) ->
  In e (App.filteredEdges edges t) <->
  In e edges /\ JsNumber.ge (JsNumber.parseFloat (String c l)) t = true.
Proof.
  intros labelled. rewrite filteredEdges_In, labelled. reflexivity.
Qed.

Example filteredEdges_067 :
  App.filteredEdges (graph_edges Fixtures.graph) (JsNumber.parseFloat "0.65")
    = graph_edges Fixtures.graph
  /\ App.filteredEdges (graph_edges Fixtures.graph) (JsNumber.parseFloat "0.7") = []
  /\ App.filteredEdges (graph_edges Fixtures.graph) (JsNumber.parseFloat "0.67")
    = graph_edges Fixtures.graph
  /\ App.filteredEdges (graph_edges Fixtures.graph) JsNumber.NaN = [].
Proof. repeat split; vm_compute; reflexivity. Qed.

Lemma order_kept_checked : EdgeLabel.order_kept EdgeLabel.weights = true.
Proof. vm_compute. reflexivity. Qed.

Lemma order_kept_In (l : list nat) (j k : nat) :
  EdgeLabel.order_kept l = true -> In j l -> In k l ->
  JsNumber.ge (JsNumber.parseFloat (EdgeLabel.two_decimals k))
    (JsNumber.parseFloat (EdgeLabel.two_decimals j)) = Nat.leb j k.
Proof.
  unfold EdgeLabel.order_kept. intros checked hj hk.
  rewrite forallb_forall in checked. specialize (checked j hj).
  rewrite forallb_forall in checked. specialize (checked k hk).
  apply Bool.eqb_prop. exact checked.
Qed.

Lemma two_decimals_order (j k : nat) :
  (j <= 100)%nat -> (k <= 100)%nat ->
  JsNumber.ge (JsNumber.parseFloat (EdgeLabel.two_decimals k))
    (JsNumber.parseFloat (EdgeLabel.two_decimals j)) = Nat.leb j k.
Proof.
  intros hj hk.
  assert (member : forall n, (n <= 100)%nat -> In n EdgeLabel.weights).
  { intros n hn. apply in_seq. lia. }
  exact (order_kept_In EdgeLabel.weights j k order_kept_checked (member j hj) (member k hk)).
Qed.

(** With labels and threshold both written to two decimals, the filter
    compares hundredths. *)
Lemma filteredEdges_two_decimals (edges : list Edge) (e : Edge) (j k : nat) :
  (j <= 100)%nat -> (k <= 100)%nat ->
  edge_label e = Some (EdgeLabel.two_decimals k) ->
  In e (App.filteredEdges edges (JsNumber.parseFloat (EdgeLabel.two_decimals j))) <->
  In e edges /\ (j <= k)%nat.
Proof.
  intros hj hk labelled. rewrite filteredEdges_In, labelled.
  change (JsString.or_else (Some (EdgeLabel.two_decimals k)) "0")
    with (EdgeLabel.two_decimals k).
  rewrite (two_decimals_order j k hj hk), Nat.leb_le. reflexivity.
Qed.

Example two_decimals_067 : EdgeLabel.two_decimals 67 = "0.67".
Proof. reflexivity. Qed.

(** ** Running the [api] calls *)

Lemma search_run (q : string) (w : World) :
  api.search q w =
  match serve_search (backend w) (api.search_request q) with
  | Unreachable => (Thrown "Failed to fetch", transmitted (api.search_request q) w)
  | Answer st parsed =>
      if (200 <=? st) && (st <=? 299) then
        match parsed with
        | Some res => (Returned res, transmitted (api.search_request q) w)
        | None => (Thrown "Unexpected token in JSON", transmitted (api.search_request q) w)
        end
      else (Thrown "Search failed", transmitted (api.search_request q) w)
  end.
Proof.
  unfold api.search, bind, fetch, transmitted.
  destruct (serve_search _ _) as [|st parsed]; [reflexivity|].
  unfold ok, json; cbn [status parsed_body negb].
  destruct ((200 <=? st) && (st <=? 299)); [|reflexivity].
  destruct parsed; reflexivity.
Qed.

Lemma buildGraph_run (paperId : string) (width height : option Z) (w : World) :
  api.buildGraph paperId width height w =
  let req := api.buildGraph_request paperId width height in
  match serve_build_graph (backend w) req with
  | Unreachable => (Thrown "Failed to fetch", transmitted req w)
  | Answer st parsed =>
      if (200 <=? st) && (st <=? 299) then
        match parsed with
        | Some g => (Returned g, transmitted req w)
        | None => (Thrown "Unexpected token in JSON", transmitted req w)
        end
      else (Thrown "Failed to build graph", transmitted req w)
  end.
Proof.
  unfold api.buildGraph, bind, fetch, transmitted. cbv zeta.
  destruct (serve_build_graph _ _) as [|st parsed]; [reflexivity|].
  unfold ok, json; cbn [status parsed_body negb].
  destruct ((200 <=? st) && (st <=? 299)); [|reflexivity].
  destruct parsed; reflexivity.
Qed.

Lemma summarizeConnection_run (a b : string) (w : World) :
  api.summarizeConnection a b w =
  let req := api.summarizeConnection_request a b in
  match serve_summarize_connection (backend w) req with
  | Unreachable => (Thrown "Failed to fetch", transmitted req w)
  | Answer st parsed =>
      if (200 <=? st) && (st <=? 299) then
        match parsed with
        | Some res => (Returned res, transmitted req w)
        | None => (Thrown "Unexpected token in JSON", transmitted req w)
        end
      else (Thrown "Summarization failed", transmitted req w)
  end.
Proof.
  unfold api.summarizeConnection, bind, fetch, transmitted. cbv zeta.
  destruct (serve_summarize_connection _ _) as [|st parsed]; [reflexivity|].
  unfold ok, json; cbn [status parsed_body negb].
  destruct ((200 <=? st) && (st <=? 299)); [|reflexivity].
  destruct parsed; reflexivity.
Qed.

Lemma in_range_true (st : Z) : 200 <= st <= 299 -> (200 <=? st) && (st <=? 299) = true.
Proof. intros [lo hi]. apply andb_true_iff. split; apply Z.leb_le; assumption. Qed.

Lemma out_of_range_false (st : Z) : ~ 200 <= st <= 299 -> (200 <=? st) && (st <=? 299) = false.
Proof.
  intros out. destruct ((200 <=? st) && (st <=? 299)) eqn:E; [|reflexivity].
  apply andb_true_iff in E. rewrite !Z.leb_le in E. contradiction.
Qed.

Lemma buildGraph_sends (paperId : string) (width height : option Z) (w : World) :
  snd (api.buildGraph paperId width height w)
    = transmitted (api.buildGraph_request paperId width height) w.
Proof.
  rewrite buildGraph_run. cbv zeta.
  destruct (serve_build_graph _ _) as [|st parsed]; [reflexivity|].
  destruct ((200 <=? st) && (st <=? 299)); [|reflexivity].
  destruct parsed; reflexivity.
Qed.

(** ** [api.buildGraph] *)

(** [api.buildGraph] issues one GET to [build_graph] with the given paper id
    and the given width and height, each replaced by 1000 when it is absent
    or 0; any other value, a negative one included, is sent as it is
    (claim C2, amended). *)
Theorem buildGraph_issues_get (paperId : string) (width height : option Z) (w : World) :
  let dimension (arg : option Z) :=
    match arg with
    | None | Some 0 => 1000
    | Some n => n
    end in
  sent (snd (api.buildGraph paperId width height w)) =
  (sent w ++
   [ {| method := "GET";
        url := "http://localhost:8000" ++ "/build_graph?paper_id=" ++ paperId
                 ++ "&width=" ++ api.show (dimension width)
                 ++ "&height=" ++ api.show (dimension height);
        headers := [];
        body := None |} ])%list.
Proof.
  cbv zeta. rewrite buildGraph_sends. unfold transmitted. cbn [sent with_sent].
  do 2 f_equal. unfold api.buildGraph_request, api.GET, api.API_BASE_URL.
  destruct width as [[| |]|], height as [[| |]|]; reflexivity.
Qed.

(** Called with width -5, the client asks for width -5 and not for 1000: a
    negative dimension is not replaced by the default (claim C2 as stated,
    refuted). *)
Lemma buildGraph_negative_width_kept :
  sent (snd (api.buildGraph "W1" (Some (-5)) (Some 600) (Fixtures.fresh Fixtures.silent "")))
    = [ api.GET "http://localhost:8000/build_graph?paper_id=W1&width=-5&height=600" ]
  /\ sent (snd (api.buildGraph "W1" (Some (-5)) (Some 600) (Fixtures.fresh Fixtures.silent "")))
    <> [ api.GET "http://localhost:8000/build_graph?paper_id=W1&width=1000&height=600" ].
Proof. split; vm_compute; [reflexivity | discriminate]. Qed.

Example buildGraph_defaults :
  map url (sent (snd (api.buildGraph "W1" None (Some 0) (Fixtures.fresh Fixtures.silent ""))))
    = [ "http://localhost:8000/build_graph?paper_id=W1&width=1000&height=1000" ].
Proof. reflexivity. Qed.

(** ** [App.onSearch] *)

Lemma onSearch_run (q : string) (w : World) :
  App.onSearch q w =
  match api.search q (with_loading true w) with
  | (Returned res, w1) =>
      match results res with
      | Some (first :: _) =>
          match api.buildGraph (paperId first) (Some (innerWidth w1)) (Some (innerHeight w1)) w1 with
          | (Returned g, w2) => (Returned tt, with_loading false (show_graph g w2))
          | (Thrown e, w2) => (Returned tt, with_loading false (report_failure e w2))
          end
      | Some [] | None =>
          (Returned tt, with_loading false (with_alerts (alerts w1 ++ ["No papers found!"]) w1))
      end
  | (Thrown e, w1) => (Returned tt, with_loading false (report_failure e w1))
  end.
Proof.
  unfold App.onSearch, try_catch_finally, bind at 1, App.setLoading, modify.
  unfold bind at 1.
  destruct (api.search q (with_loading true w)) as [[res|e] w1]; [|reflexivity].
  destruct (results res) as [[|first rest]|]; [reflexivity| |reflexivity].
  unfold bind at 1, gets. unfold bind at 1. unfold bind at 1.
  destruct (api.buildGraph _ _ _ w1) as [[g|e] w2]; reflexivity.
Qed.

Lemma onBuildGraphForId_run (i : string) (w : World) :
  App.onBuildGraphForId i w =
  match api.buildGraph i None None (with_loading true w) with
  | (Returned g, w1) => (Returned tt, with_loading false (show_graph g w1))
  | (Thrown e, w1) =>
      (Returned tt, with_loading false (with_alerts (alerts w1 ++ ["Failed to build graph"]) w1))
  end.
Proof.
  unfold App.onBuildGraphForId, try_catch_finally, bind at 1, App.setLoading, modify.
  unfold bind at 1.
  destruct (api.buildGraph _ _ _ _) as [[g|e] w1]; reflexivity.
Qed.



(** After a search answered with a non-empty [results], [onSearch] asks
    [build_graph] for the first result's [paperId] with the window's
    [innerWidth] and [innerHeight]; after one answered with [results] empty
    or absent, it sends nothing more and leaves nodes and edges as they were
    (claim C4). *)
Theorem onSearch_builds_first_result (q : string) (w : World) (st : Z) (res : SearchResults) :
  serve_search (backend w) (api.search_request q) = Answer st (Some res) ->
  200 <= st <= 299 ->
  (forall first rest,
      results res = Some (first :: rest) ->
      sent (snd (App.onSearch q w)) =
      (sent w ++ [ api.search_request q;
                   api.buildGraph_request (paperId first)
                     (Some (innerWidth w)) (Some (innerHeight w)) ])%list) /\
  (results res = Some [] \/ results res = None ->
      sent (snd (App.onSearch q w)) = (sent w ++ [ api.search_request q ])%list /\
      nodes (snd (App.onSearch q w)) = nodes w /\
      edges (snd (App.onSearch q w)) = edges w).
Proof.
  intros answered success.
  assert (searched : api.search q (with_loading true w)
                     = (Returned res, transmitted (api.search_request q) (with_loading true w))).
  { rewrite search_run. change (backend (with_loading true w)) with (backend w).
    rewrite answered, (in_range_true st success). reflexivity. }
  split.
  - intros first rest found. rewrite onSearch_run, searched, found.
    pose proof (buildGraph_sends (paperId first)
                  (Some (innerWidth w)) (Some (innerHeight w))
                  (transmitted (api.search_request q) (with_loading true w))) as built.
    cbn [innerWidth innerHeight transmitted with_sent with_loading] in *.
    destruct (api.buildGraph _ _ _ _) as [[g|e] w2]; cbn [snd] in *; subst w2;
      cbn; rewrite <- app_assoc; reflexivity.
  - intros none. rewrite onSearch_run, searched.
    destruct none as [-> | ->]; repeat split; reflexivity.
Qed.

Lemma onSearch_builds_first_result_witness :
  map url (sent (snd (App.onSearch "attention"
                        (Fixtures.fresh (Fixtures.answering 200) "attention")))) =
  [ "http://localhost:8000/search?query=attention";
    "http://localhost:8000/build_graph?paper_id=W1&width=1280&height=720" ].
Proof.
  destruct (onSearch_builds_first_result "attention"
              (Fixtures.fresh (Fixtures.answering 200) "attention") 200
              {| results := Some [{| paperId := "W1"; title := "Seed" |}] |})
    as (built & _).
  - reflexivity.
  - lia.
  - rewrite (built _ _ eq_refl). reflexivity.
Defined.

(** When the build succeeds too, its nodes and edges are put on display. *)
Lemma onSearch_shows_built_graph (q : string) (w : World) (st st' : Z)
    (res : SearchResults) (first : SearchHit) (rest : list SearchHit) (g : GraphData) :
  serve_search (backend w) (api.search_request q) = Answer st (Some res) ->
  200 <= st <= 299 ->
  results res = Some (first :: rest) ->
  serve_build_graph (backend w)
    (api.buildGraph_request (paperId first) (Some (innerWidth w)) (Some (innerHeight w)))
    = Answer st' (Some g) ->
  200 <= st' <= 299 ->
  nodes (snd (App.onSearch q w)) = graph_nodes g /\
  edges (snd (App.onSearch q w)) = graph_edges g.
Proof.
  intros answered success found built success'.
  rewrite onSearch_run, search_run.
  change (backend (with_loading true w)) with (backend w).
  rewrite answered, (in_range_true st success), found, buildGraph_run. cbv zeta.
  cbn [backend innerWidth innerHeight transmitted with_sent with_loading].
  rewrite built, (in_range_true st' success'). split; reflexivity.
Qed.

Example onSearch_shows_graph :
  let w' := snd (App.onSearch "attention" (Fixtures.fresh (Fixtures.answering 200) "attention")) in
  nodes w' = graph_nodes Fixtures.graph /\ edges w' = graph_edges Fixtures.graph
  /\ loading w' = false /\ alerts w' = [].
Proof. repeat split; reflexivity. Qed.

(** ** [SearchBar.handleSubmit] *)

Lemma white_space_nonempty (u : string) :
  In u JsString.white_space -> exists c r, u = String c r.
Proof.
  unfold JsString.white_space. cbn [In].
  intros H. repeat (destruct H as [<- | H]; [eexists _, _; reflexivity|]).
  destruct H.
Qed.

Lemma strip_one_white_space (u s : string) :
  In u JsString.white_space -> JsString.strip_one JsString.white_space (u ++ s) = Some s.
Proof.
  unfold JsString.white_space. cbn [In].
  intros H. repeat (destruct H as [<- | H]; [reflexivity|]).
  destruct H.
Qed.

Lemma length_append (a b : string) :
  String.length (a ++ b) = (String.length a + String.length b)%nat.
Proof. induction a as [|c a IH]; simpl; [reflexivity | f_equal; exact IH]. Qed.

Lemma strip_all_white (s : string) :
  JsString.AllWhite s ->
  forall fuel, (String.length s <= fuel)%nat ->
  JsString.strip_all JsString.white_space fuel s = EmptyString.
Proof.
  induction 1 as [|u s member rest IH]; intros fuel bound.
  - destruct fuel; reflexivity.
  - destruct (white_space_nonempty u member) as (c & r & ->).
    rewrite length_append in bound. cbn [String.length] in bound.
    destruct fuel as [|fuel]; [lia|].
    cbn [JsString.strip_all]. rewrite (strip_one_white_space _ s member).
    apply IH. lia.
Qed.

Lemma trim_white (s : string) : JsString.AllWhite s -> JsString.trim s = EmptyString.
Proof.
  intros white. unfold JsString.trim, JsString.trimStart.
  rewrite (strip_all_white s white _ (Nat.le_refl _)). reflexivity.
Qed.

(** Submitting a query that is empty or all white space returns before
    [onSearch] is called, whatever [onSearch] is: nothing is sent and the
    graph on display stays (claim C8). *)
Theorem handleSubmit_blank_query (onSearch : string -> M unit) (w : World) :
  JsString.AllWhite (query w) ->
  SearchBar.handleSubmit onSearch w = (Returned tt, with_default_prevented true w) /\
  sent (snd (SearchBar.handleSubmit onSearch w)) = sent w /\
  nodes (snd (SearchBar.handleSubmit onSearch w)) = nodes w /\
  edges (snd (SearchBar.handleSubmit onSearch w)) = edges w.
Proof.
  intros blank.
  assert (run : SearchBar.handleSubmit onSearch w
                = (Returned tt, with_default_prevented true w)).
  { unfold SearchBar.handleSubmit, bind, modify, gets.
    cbn [query with_default_prevented]. rewrite (trim_white _ blank). reflexivity. }
  rewrite run. repeat split; reflexivity.
Qed.

Lemma handleSubmit_blank_query_witness :
  sent (snd (SearchBar.handleSubmit App.onSearch
               (Fixtures.showing (Fixtures.answering 200) "   "))) = [] /\
  nodes (snd (SearchBar.handleSubmit App.onSearch
                (Fixtures.showing (Fixtures.answering 200) "   ")))
    = graph_nodes Fixtures.graph.
Proof.
  destruct (handleSubmit_blank_query App.onSearch
              (Fixtures.showing (Fixtures.answering 200) "   "))
    as (_ & quiet & kept & _).
  - assert (space : In " " JsString.white_space)
      by (do 5 right; left; reflexivity).
    exact (JsString.AllWhite_more " " "  " space
             (JsString.AllWhite_more " " " " space
                (JsString.AllWhite_more " " "" space JsString.AllWhite_empty))).
  - split; [exact quiet | exact kept].
Defined.

Example handleSubmit_searches :
  let w := Fixtures.fresh (Fixtures.answering 200) " attention " in
  map url (sent (snd (SearchBar.handleSubmit App.onSearch w))) =
  [ "http://localhost:8000/search?query=%20attention%20";
    "http://localhost:8000/build_graph?paper_id=W1&width=1280&height=720" ].
Proof. reflexivity. Qed.

(** ** [api.summarizeConnection] and [Sidebar.handleExplain] *)

Lemma summarizeConnection_sends (a b : string) (w : World) :
  snd (api.summarizeConnection a b w)
    = transmitted (api.summarizeConnection_request a b) w.
Proof.
  rewrite summarizeConnection_run. cbv zeta.
  destruct (serve_summarize_connection _ _) as [|st parsed]; [reflexivity|].
  destruct ((200 <=? st) && (st <=? 299)); [|reflexivity].
  destruct parsed; reflexivity.
Qed.

(** [api.summarizeConnection] posts to [summarize_connection] a JSON object
    with the keys [source_abstract] and [target_abstract], in that order,
    bound to its first and second argument; when the answer has a 2xx status
    and parses, [Sidebar] stores its [summary] as the explanation and
    displays it (claim C7). *)
Theorem summarizeConnection_posts_abstracts :
  (forall sourceAbstract targetAbstract w,
      sent (snd (api.summarizeConnection sourceAbstract targetAbstract w)) =
      (sent w ++
       [ {| method := "POST";
            url := "http://localhost:8000/summarize_connection";
            headers := [("Content-Type", "application/json")];
            body := Some (api.JSON_stringify [("source_abstract", sourceAbstract);
                                              ("target_abstract", targetAbstract)]) |} ])%list) /\
  (forall seedNode selectedNode w st res,
      serve_summarize_connection (backend w)
        (api.summarizeConnection_request
           (JsString.or_else (match seedNode with
                              | Some n => abstract (data n)
                              | None => None
                              end) "No abstract available for seed paper.")
           (JsString.or_else (abstract (data selectedNode)) "No abstract available."))
        = Answer st (Some res) ->
      200 <= st <= 299 ->
      explanation (snd (Sidebar.handleExplain seedNode selectedNode w)) = Some (summary res) /\
      (summary res <> EmptyString ->
       Sidebar.shown_explanation (snd (Sidebar.handleExplain seedNode selectedNode w))
         = Some (summary res))).
Proof.
  split.
  - intros a b w. rewrite summarizeConnection_sends. reflexivity.
  - intros seedNode selectedNode w st res answered success.
    assert (stored : explanation (snd (Sidebar.handleExplain seedNode selectedNode w))
                     = Some (summary res)).
    { unfold Sidebar.handleExplain, try_catch_finally, bind at 1, Sidebar.setLoading, modify.
      unfold bind at 1. rewrite summarizeConnection_run. cbv zeta.
      change (backend (with_sidebar_loading true w)) with (backend w).
      rewrite answered, (in_range_true st success).
      unfold bind, Sidebar.setExplanation, modify.
      destruct (JsString.truthy (node_id selectedNode)); reflexivity. }
    split; [exact stored|].
    intros nonempty. unfold Sidebar.shown_explanation. rewrite stored.
    destruct (summary res); [contradiction | reflexivity].
Qed.

Lemma summarizeConnection_posts_abstracts_witness :
  explanation (snd (Sidebar.handleExplain (Some (Fixtures.paper "W1" true))
                      (Fixtures.paper "W2" false)
                      (Fixtures.fresh (Fixtures.answering 200) "")))
    = Some "Both cite X.".
Proof.
  destruct summarizeConnection_posts_abstracts as (_ & shows).
  destruct (shows (Some (Fixtures.paper "W1" true)) (Fixtures.paper "W2" false)
              (Fixtures.fresh (Fixtures.answering 200) "") 200
              {| summary := "Both cite X." |}) as (stored & _).
  - reflexivity.
  - lia.
  - exact stored.
Defined.

Example handleExplain_request_body :
  map body (sent (snd (Sidebar.handleExplain (Some (Fixtures.paper "W1" true))
                         (Fixtures.paper "W2" false)
                         (Fixtures.fresh (Fixtures.answering 200) ""))))
    = [ Some (api.JSON_stringify [("source_abstract", "An abstract.");
                                  ("target_abstract", "An abstract.")]) ].
Proof. reflexivity. Qed.

(** ** Coupling score *)

Lemma size_positive (s : gset string) : s <> ∅ -> (0 < size s)%nat.
Proof.
  intros inhabited. destruct (size s) eqn:E; [|lia].
  apply size_empty_iff in E. apply leibniz_equiv in E. contradiction.
Qed.

(** For papers that both have references the coupling score is the number
    of shared references over the size of the smaller reference set; it is 0
    as soon as one reference set is empty; and it does not depend on the
    order of the two papers (claim C5). *)
Theorem coupling_normalized_and_symmetric (a b : CouplingScorer.Paper) :
  let ra := CouplingScorer.referenceIds a in
  let rb := CouplingScorer.referenceIds b in
  (ra <> ∅ -> rb <> ∅ ->
   (CouplingScorer.coupling a b ==
    inject_Z (Z.of_nat (size (ra ∩ rb)))
      / inject_Z (Z.of_nat (Nat.min (size ra) (size rb))))%Q) /\
  (ra = ∅ \/ rb = ∅ -> CouplingScorer.coupling a b = 0%Q) /\
  CouplingScorer.coupling a b = CouplingScorer.coupling b a.
Proof.
  cbv zeta. unfold CouplingScorer.coupling. cbv zeta. split; [|split].
  - intros ha hb. destruct (decide _) as [[?|?]|_]; [contradiction..|].
    rewrite Qmake_Qdiv.
    pose proof (size_positive _ ha). pose proof (size_positive _ hb).
    replace (Z.pos (Pos.of_nat (Nat.min (size (CouplingScorer.referenceIds a))
                                  (size (CouplingScorer.referenceIds b)))))
      with (Z.of_nat (Nat.min (size (CouplingScorer.referenceIds a))
                        (size (CouplingScorer.referenceIds b)))) by lia.
    reflexivity.
  - intros none. destruct (decide _) as [_|some]; [reflexivity | contradiction].
  - rewrite (comm_L (∩) (CouplingScorer.referenceIds a)), Nat.min_comm.
    destruct (decide (_ = ∅ ∨ _ = ∅)) as [ab|ab], (decide (_ = ∅ ∨ _ = ∅)) as [ba|ba];
      try reflexivity; exfalso; tauto.
Qed.

Lemma coupling_normalized_and_symmetric_witness :
  (CouplingScorer.coupling Fixtures.seed_paper Fixtures.candidate == 1)%Q /\
  CouplingScorer.coupling Fixtures.seed_paper Fixtures.candidate
    = CouplingScorer.coupling Fixtures.candidate Fixtures.seed_paper.
Proof.
  destruct (coupling_normalized_and_symmetric Fixtures.seed_paper Fixtures.candidate)
    as (ratio & _ & symmetric).
  split; [|exact symmetric].
  rewrite ratio.
  - vm_compute. reflexivity.
  - vm_compute. discriminate.
  - vm_compute. discriminate.
Defined.

(** ** Initial layout *)

Section LayoutFits.

Local Open Scope R_scope.
Import Layout.

Lemma on_circle (c : Point) (r angle : R) :
  0 <= r ->
  distance {| px := px c + r * cos angle; py := py c + r * sin angle |} c = r.
Proof.
  intros nonneg. unfold distance. cbn [px py].
  replace ((px c + r * cos angle - px c) * (px c + r * cos angle - px c)
           + (py c + r * sin angle - py c) * (py c + r * sin angle - py c))
    with (Rsqr r).
  - apply sqrt_Rsqr. exact nonneg.
  - pose proof (sin2_cos2 angle) as unit. unfold Rsqr in *.
    replace (r * r) with (r * r * (sin angle * sin angle + cos angle * cos angle))
      by (rewrite unit; ring).
    ring.
Qed.

Lemma place_ring_on_circle (c : Point) (radius offset : R) (ringSize : nat)
    (ids : list string) :
  0 <= radius ->
  forall i,
    map placed_id (place_ring c radius offset ringSize i ids) = ids /\
    Forall (fun n => placed_isSeed n = false /\ distance (placed_at n) c = radius)
      (place_ring c radius offset ringSize i ids).
Proof.
  intros nonneg. induction ids as [|first rest IH]; intros i.
  - split; constructor.
  - destruct (IH (S i)) as [named placed]. split.
    + cbn [place_ring map placed_id]. rewrite named. reflexivity.
    + constructor; [|exact placed].
      split; [reflexivity|]. apply on_circle. exact nonneg.
Qed.

Lemma max_radius_nonneg (width height : Z) :
  (0 <= width)%Z -> (0 <= height)%Z -> 0 <= max_radius width height.
Proof.
  intros wide tall. unfold max_radius.
  apply IZR_le in wide, tall.
  unfold Rmin. destruct (Rle_dec (IZR width) (IZR height)); lra.
Qed.

Lemma ring_radius_fits (width height : Z) (ringCount ringIndex : nat) :
  (0 <= width)%Z -> (0 <= height)%Z -> (ringIndex < ringCount)%nat ->
  0 <= ring_radius width height ringCount ringIndex <= max_radius width height.
Proof.
  intros wide tall inside. unfold ring_radius.
  pose proof (max_radius_nonneg width height wide tall) as nonneg.
  set (bound := max_radius width height) in *.
  assert (0 < INR ringCount) as positive by (apply lt_0_INR; lia).
  assert (0 <= INR (S ringIndex) <= INR ringCount) as [low high]
    by (split; [apply pos_INR | apply le_INR; lia]).
  split.
  - apply Rmult_le_pos; [apply Rmult_le_pos; assumption|].
    left. apply Rinv_0_lt_compat. exact positive.
  - apply Rmult_le_reg_r with (INR ringCount); [exact positive|].
    unfold Rdiv. rewrite Rmult_assoc, Rinv_l, Rmult_1_r by lra.
    apply Rmult_le_compat_l; assumption.
Qed.

Lemma place_rings_fit (width height : Z) (offset : nat -> R) (ringCount : nat)
    (rings : list (list string)) :
  (0 <= width)%Z -> (0 <= height)%Z ->
  forall ringIndex, (ringIndex + List.length rings <= ringCount)%nat ->
    map placed_id (place_rings width height offset ringCount ringIndex rings)
      = concat rings /\
    Forall (fun n => placed_isSeed n = false /\
                     distance (placed_at n) (center width height)
                       <= max_radius width height)
      (place_rings width height offset ringCount ringIndex rings).
Proof.
  intros wide tall. induction rings as [|members outer IH]; intros ringIndex room.
  - split; constructor.
  - cbn [List.length] in room.
    destruct (IH (S ringIndex)) as [named placed]; [lia|].
    destruct (ring_radius_fits width height ringCount ringIndex wide tall)
      as [nonneg within]; [lia|].
    destruct (place_ring_on_circle (center width height)
                (ring_radius width height ringCount ringIndex) (offset ringIndex)
                (List.length members) members nonneg O) as [ring_named ring_placed].
    cbn [place_rings concat]. split.
    + rewrite map_app, ring_named, named. reflexivity.
    + apply Forall_app. split; [|exact placed].
      eapply Forall_impl; [exact ring_placed|].
      intros n [other on_ring]. split; [exact other|].
      rewrite on_ring. exact within.
Qed.

Lemma canvas_positive (d : option Z) : (0 < canvas d)%Z.
Proof.
  unfold canvas. destruct d as [n|]; [|lia].
  destruct (0 <? n)%Z eqn:positive; [|lia].
  apply Z.ltb_lt. exact positive.
Qed.

End LayoutFits.

(** In the layout of a built graph the seed sits at the centre of the canvas,
    [(width/2, height/2)], and every other node lies within
    [0.45 * min(width, height)] of it. The layout is the seed followed by
    every candidate of the rings, each once and in ring order, and the
    canvas is the requested one when both dimensions are positive
    (claim C6). *)
Theorem build_graph_layout_fits (seed : string) (width height : option Z)
    (offset : nat -> R) (rings : list (list string)) :
  let w := Layout.canvas width in
  let h := Layout.canvas height in
  let c := {| Layout.px := (IZR w / 2)%R; Layout.py := (IZR h / 2)%R |} in
  (exists others,
      Layout.build_graph_layout seed width height offset rings
        = {| Layout.placed_id := seed; Layout.placed_isSeed := true;
             Layout.placed_at := c |} :: others /\
      map Layout.placed_id others = concat rings /\
      Forall (fun n => Layout.placed_isSeed n = false /\
                       (Layout.distance (Layout.placed_at n) c
                        <= 0.45 * Rmin (IZR w) (IZR h))%R) others) /\
  (forall gw gh, width = Some gw -> height = Some gh -> 0 < gw -> 0 < gh ->
     w = gw /\ h = gh).
Proof.
  cbv zeta. split.
  - pose proof (canvas_positive width) as wide.
    pose proof (canvas_positive height) as tall.
    destruct (place_rings_fit (Layout.canvas width) (Layout.canvas height) offset
                (List.length rings) rings ltac:(lia) ltac:(lia) O ltac:(lia))
      as [named placed].
    eexists. split; [reflexivity|]. split; [exact named | exact placed].
  - intros gw gh -> -> posw posh. unfold Layout.canvas.
    apply Z.ltb_lt in posw, posh. rewrite posw, posh. split; reflexivity.
Qed.

Lemma build_graph_layout_fits_witness :
  exists others,
    Layout.build_graph_layout "A" (Some 800) (Some 600) INR Fixtures.two_rings
      = {| Layout.placed_id := "A"; Layout.placed_isSeed := true;
           Layout.placed_at := {| Layout.px := (IZR 800 / 2)%R;
                                  Layout.py := (IZR 600 / 2)%R |} |} :: others /\
    map Layout.placed_id others = ["B"; "C"; "D"] /\
    Forall (fun n => Layout.placed_isSeed n = false /\
                     (Layout.distance (Layout.placed_at n)
                        {| Layout.px := (IZR 800 / 2)%R; Layout.py := (IZR 600 / 2)%R |}
                      <= 0.45 * Rmin (IZR 800) (IZR 600))%R) others.
Proof.
  destruct (build_graph_layout_fits "A" (Some 800) (Some 600) INR Fixtures.two_rings)
    as [placed _].
  exact placed.
Defined.

(** ** How the handlers end *)

Lemma handleExplain_run (seedNode : option Node) (selectedNode : Node) (w : World) :
  Sidebar.handleExplain seedNode selectedNode w =
  match api.summarizeConnection
          (JsString.or_else (match seedNode with
                             | Some n => abstract (data n)
                             | None => None
                             end) "No abstract available for seed paper.")
          (JsString.or_else (abstract (data selectedNode)) "No abstract available.")
          (with_sidebar_loading true w) with
  | (Returned res, w1) =>
      (Returned tt,
       with_sidebar_loading false
         (Sidebar_remember (node_id selectedNode) (summary res)
            (with_explanation (Some (summary res)) w1)))
  | (Thrown e, w1) =>
      (Returned tt,
       with_sidebar_loading false
         (with_explanation (Some "Failed to generate explanation. Please try again.") w1))
  end.
Proof.
  unfold Sidebar.handleExplain, try_catch_finally, Sidebar.setLoading, modify.
  unfold bind at 1.
  unfold bind at 1.
  destruct (api.summarizeConnection _ _ (with_sidebar_loading true w)) as [[res|e] w1];
    [|reflexivity].
  unfold bind, Sidebar.setExplanation, modify, Sidebar_remember.
  destruct (JsString.truthy (node_id selectedNode)); reflexivity.
Qed.

(** Whatever the server does, [onSearch], [onBuildGraphForId] and
    [handleExplain] return normally and leave their loading flag off. *)
Theorem handlers_settle (w : World) :
  (forall q,
      fst (App.onSearch q w) = Returned tt /\ loading (snd (App.onSearch q w)) = false) /\
  (forall i,
      fst (App.onBuildGraphForId i w) = Returned tt /\
      loading (snd (App.onBuildGraphForId i w)) = false) /\
  (forall seedNode selectedNode,
      fst (Sidebar.handleExplain seedNode selectedNode w) = Returned tt /\
      sidebar_loading (snd (Sidebar.handleExplain seedNode selectedNode w)) = false).
Proof.
  split; [|split].
  - intros q. rewrite onSearch_run.
    destruct (api.search q _) as [[res|e] w1]; [|split; reflexivity].
    destruct (results res) as [[|first rest]|]; [split; reflexivity| |split; reflexivity].
    destruct (api.buildGraph _ _ _ _) as [[g|e] w2]; split; reflexivity.
  - intros i. rewrite onBuildGraphForId_run.
    destruct (api.buildGraph _ _ _ _) as [[g|e] w1]; split; reflexivity.
  - intros seedNode selectedNode. rewrite handleExplain_run.
    destruct (api.summarizeConnection _ _ _) as [[res|e] w1]; split; reflexivity.
Qed.

(** A search ends in one of three ways, where the 2xx answers of the two
    endpoints are of their shape. Either both requests were answered with a
    2xx status and the nodes and edges on display are those of the build
    answer, with no alert; or the display is untouched and exactly one alert
    is added, [No papers found!] or [Error building graph]. *)
Theorem onSearch_all_or_nothing (q : string) (w : World) :
  in_shape (serve_search (backend w) (api.search_request q)) = true ->
  (forall i,
      in_shape (serve_build_graph (backend w)
                  (api.buildGraph_request i (Some (innerWidth w)) (Some (innerHeight w))))
        = true) ->
  (exists first st g,
      serve_build_graph (backend w)
        (api.buildGraph_request (paperId first) (Some (innerWidth w)) (Some (innerHeight w)))
        = Answer st (Some g) /\
      200 <= st <= 299 /\
      nodes (snd (App.onSearch q w)) = graph_nodes g /\
      edges (snd (App.onSearch q w)) = graph_edges g /\
      alerts (snd (App.onSearch q w)) = alerts w) \/
  (nodes (snd (App.onSearch q w)) = nodes w /\
   edges (snd (App.onSearch q w)) = edges w /\
   (alerts (snd (App.onSearch q w)) = (alerts w ++ ["No papers found!"])%list \/
    alerts (snd (App.onSearch q w)) = (alerts w ++ ["Error building graph"])%list)).
Proof.
  intros searched built_in_shape.
  rewrite onSearch_run, search_run.
  change (backend (with_loading true w)) with (backend w).
  destruct (serve_search _ _) as [|st parsed];
    [right; repeat split; right; reflexivity|].
  cbn [in_shape] in searched.
  destruct ((200 <=? st) && (st <=? 299));
    [|right; repeat split; right; reflexivity].
  destruct parsed as [res|]; [|discriminate searched].
  destruct (results res) as [[|first rest]|];
    [right; repeat split; left; reflexivity| |right; repeat split; left; reflexivity].
  rewrite buildGraph_run. cbv zeta.
  cbn [backend innerWidth innerHeight transmitted with_sent with_loading].
  specialize (built_in_shape (paperId first)).
  destruct (serve_build_graph _ _) as [|st' parsed'] eqn:built;
    [right; repeat split; right; reflexivity|].
  cbn [in_shape] in built_in_shape.
  destruct ((200 <=? st') && (st' <=? 299)) eqn:range;
    [|right; repeat split; right; reflexivity].
  destruct parsed' as [g|]; [|discriminate built_in_shape].
  left. exists first, st', g. split; [exact built|].
  split; [|repeat split; reflexivity].
  apply andb_true_iff in range. rewrite !Z.leb_le in range. exact range.
Qed.

Lemma onSearch_all_or_nothing_witness :
  let w := Fixtures.fresh (Fixtures.answering 200) "attention" in
  (exists first st g,
      serve_build_graph (backend w)
        (api.buildGraph_request (paperId first) (Some (innerWidth w)) (Some (innerHeight w)))
        = Answer st (Some g) /\
      200 <= st <= 299 /\
      nodes (snd (App.onSearch "attention" w)) = graph_nodes g /\
      edges (snd (App.onSearch "attention" w)) = graph_edges g /\
      alerts (snd (App.onSearch "attention" w)) = alerts w) \/
  (nodes (snd (App.onSearch "attention" w)) = nodes w /\
   edges (snd (App.onSearch "attention" w)) = edges w /\
   (alerts (snd (App.onSearch "attention" w)) = (alerts w ++ ["No papers found!"])%list \/
    alerts (snd (App.onSearch "attention" w)) = (alerts w ++ ["Error building graph"])%list)).
Proof.
  apply (onSearch_all_or_nothing "attention"
           (Fixtures.fresh (Fixtures.answering 200) "attention")).
  - reflexivity.
  - intros i. reflexivity.
Defined.

(** A search the server refuses is reported with the alert of a failed
    build: [Search failed] goes to the console, [Error building graph] to
    the user, and no [build_graph] request follows. *)
Theorem onSearch_search_refused (q : string) (w : World) (st : Z)
    (parsed : option SearchResults) :
  serve_search (backend w) (api.search_request q) = Answer st parsed ->
  ~ 200 <= st <= 299 ->
  sent (snd (App.onSearch q w)) = (sent w ++ [api.search_request q])%list /\
  console (snd (App.onSearch q w)) = (console w ++ ["Search failed"])%list /\
  alerts (snd (App.onSearch q w)) = (alerts w ++ ["Error building graph"])%list /\
  nodes (snd (App.onSearch q w)) = nodes w /\
  edges (snd (App.onSearch q w)) = edges w.
Proof.
  intros answered refused. rewrite onSearch_run, search_run.
  change (backend (with_loading true w)) with (backend w).
  rewrite answered, (out_of_range_false st refused). repeat split; reflexivity.
Qed.

Lemma onSearch_search_refused_witness :
  console (snd (App.onSearch "attention"
                  (Fixtures.fresh Scenes.overloaded "attention"))) = ["Search failed"] /\
  alerts (snd (App.onSearch "attention"
                 (Fixtures.fresh Scenes.overloaded "attention"))) = ["Error building graph"].
Proof.
  destruct (onSearch_search_refused "attention"
              (Fixtures.fresh Scenes.overloaded "attention") 503 None)
    as (_ & logged & alerted & _).
  - reflexivity.
  - lia.
  - split; [exact logged | exact alerted].
Defined.



(** ** What [Sidebar.handleExplain] sends and keeps *)

Lemma or_else_nonempty (v : option string) (d : string) :
  d <> EmptyString -> JsString.or_else v d <> EmptyString.
Proof.
  intros given. rewrite or_else_cases.
  destruct v as [[|c l]|]; [exact given | discriminate | exact given].
Qed.

(** [handleExplain] never sends an empty abstract: where the seed or the
    selected node has none, or an empty one, a placeholder sentence goes out
    in its place. *)
Theorem handleExplain_sends_no_empty_abstract (seedNode : option Node)
    (selectedNode : Node) (w : World) :
  exists sourceAbstract targetAbstract,
    sourceAbstract <> EmptyString /\ targetAbstract <> EmptyString /\
    (seedNode = None -> sourceAbstract = "No abstract available for seed paper.") /\
    (forall a, abstract (data selectedNode) = Some a -> a <> EmptyString ->
               targetAbstract = a) /\
    sent (snd (Sidebar.handleExplain seedNode selectedNode w)) =
    (sent w ++ [api.summarizeConnection_request sourceAbstract targetAbstract])%list.
Proof.
  eexists _, _. split; [|split; [|split; [|split]]].
  4: { intros a found nonempty.
       instantiate (1 := JsString.or_else (abstract (data selectedNode))
                            "No abstract available.").
       rewrite found, or_else_cases. destruct a; [contradiction | reflexivity]. }
  3: { intros ->.
       instantiate (1 := JsString.or_else (match seedNode with
                                           | Some n => abstract (data n)
                                           | None => None
                                           end) "No abstract available for seed paper.").
       reflexivity. }
  - apply or_else_nonempty. discriminate.
  - apply or_else_nonempty. discriminate.
  - rewrite handleExplain_run.
    pose proof (summarizeConnection_sends
                  (JsString.or_else (match seedNode with
                                     | Some n => abstract (data n)
                                     | None => None
                                     end) "No abstract available for seed paper.")
                  (JsString.or_else (abstract (data selectedNode)) "No abstract available.")
                  (with_sidebar_loading true w)) as went.
    destruct (api.summarizeConnection _ _ _) as [[res|e] w1]; cbn [snd] in went; subst w1.
    + unfold Sidebar_remember. destruct (JsString.truthy _); reflexivity.
    + reflexivity.
Qed.

(** An explanation is cached only when it arrived: after a 2xx answer of
    the endpoint's shape, the cache holds the summary under the selected
    node's id and is otherwise as before; after no answer, or an answer
    whose status is not 2xx, the cache is untouched and the explanation is
    the apology. The id is taken to be non-empty, as the code asks, and not
    [__proto__], which a JavaScript object does not keep as a key of its
    own. *)
Theorem handleExplain_caches_what_arrived (seedNode : option Node)
    (selectedNode : Node) (w : World) :
  node_id selectedNode <> EmptyString ->
  node_id selectedNode <> "__proto__" ->
  (forall st res,
      serve_summarize_connection (backend w)
        (api.summarizeConnection_request
           (JsString.or_else (match seedNode with
                              | Some n => abstract (data n)
                              | None => None
                              end) "No abstract available for seed paper.")
           (JsString.or_else (abstract (data selectedNode)) "No abstract available."))
        = Answer st (Some res) ->
      200 <= st <= 299 ->
      explanationCache (snd (Sidebar.handleExplain seedNode selectedNode w))
        !! node_id selectedNode = Some (summary res) /\
      forall j, j <> node_id selectedNode ->
        explanationCache (snd (Sidebar.handleExplain seedNode selectedNode w)) !! j
          = explanationCache w !! j) /\
  ((serve_summarize_connection (backend w)
      (api.summarizeConnection_request
         (JsString.or_else (match seedNode with
                            | Some n => abstract (data n)
                            | None => None
                            end) "No abstract available for seed paper.")
         (JsString.or_else (abstract (data selectedNode)) "No abstract available."))
      = Unreachable \/
    exists st parsed,
      serve_summarize_connection (backend w)
        (api.summarizeConnection_request
           (JsString.or_else (match seedNode with
                              | Some n => abstract (data n)
                              | None => None
                              end) "No abstract available for seed paper.")
           (JsString.or_else (abstract (data selectedNode)) "No abstract available."))
        = Answer st parsed /\
      ~ 200 <= st <= 299) ->
   explanationCache (snd (Sidebar.handleExplain seedNode selectedNode w))
     = explanationCache w /\
   explanation (snd (Sidebar.handleExplain seedNode selectedNode w))
     = Some "Failed to generate explanation. Please try again.").
Proof.
  intros named _. split.
  - intros st res answered success.
    rewrite handleExplain_run, summarizeConnection_run. cbv zeta.
    change (backend (with_sidebar_loading true w)) with (backend w).
    rewrite answered, (in_range_true st success).
    unfold Sidebar_remember.
    destruct (node_id selectedNode) as [|c i] eqn:name; [contradiction|].
    cbn [JsString.truthy explanationCache with_sidebar_loading with_explanationCache
         with_explanation transmitted with_sent].
    split; [apply lookup_insert_eq|].
    intros j other. apply lookup_insert_ne. congruence.
  - intros failed.
    rewrite handleExplain_run, summarizeConnection_run. cbv zeta.
    change (backend (with_sidebar_loading true w)) with (backend w).
    destruct failed as [-> | (st & parsed & -> & refused)]; [split; reflexivity|].
    rewrite (out_of_range_false st refused). split; reflexivity.
Qed.

Lemma handleExplain_caches_what_arrived_witness :
  explanationCache
    (snd (Sidebar.handleExplain (Some (Fixtures.paper "W1" true)) (Fixtures.paper "W2" false)
            (Fixtures.fresh (Fixtures.answering 200) ""))) !! "W2" = Some "Both cite X." /\
  explanation
    (snd (Sidebar.handleExplain (Some (Fixtures.paper "W1" true)) (Fixtures.paper "W2" false)
            (Fixtures.fresh Scenes.overloaded "")))
    = Some "Failed to generate explanation. Please try again.".
Proof.
  split.
  - destruct (handleExplain_caches_what_arrived (Some (Fixtures.paper "W1" true))
                (Fixtures.paper "W2" false) (Fixtures.fresh (Fixtures.answering 200) ""))
      as (arrived & _); [discriminate | discriminate |].
    destruct (arrived 200 {| summary := "Both cite X." |}) as (cached & _);
      [reflexivity | lia | exact cached].
  - destruct (handleExplain_caches_what_arrived (Some (Fixtures.paper "W1" true))
                (Fixtures.paper "W2" false) (Fixtures.fresh Scenes.overloaded ""))
      as (_ & failed); [discriminate | discriminate |].
    destruct failed as (_ & apology); [|exact apology].
    right. exists 503, None. split; [reflexivity | lia].
Defined.

(** ** [trim] and the queries [SearchBar] lets through *)

Lemma append_cons (c : ascii) (a b : string) : String c a ++ b = String c (a ++ b).
Proof. reflexivity. Qed.

Lemma append_empty_r (s : string) : s ++ EmptyString = s.
Proof.
  induction s as [|c s IH]; [reflexivity|]. rewrite append_cons, IH. reflexivity.
Qed.

Lemma append_assoc (a b c : string) : (a ++ b) ++ c = a ++ (b ++ c).
Proof.
  induction a as [|x a IH]; [reflexivity|]. rewrite !append_cons, IH. reflexivity.
Qed.

Lemma Tiled_app (units : list string) (a b : string) :
  Tiled units a -> Tiled units b -> Tiled units (a ++ b).
Proof.
  induction 1 as [|u a member _ IH]; intros tb; [exact tb|].
  rewrite append_assoc. apply Tiled_more; [exact member | exact (IH tb)].
Qed.

Lemma Tiled_one (units : list string) (u : string) : In u units -> Tiled units u.
Proof.
  intros member. rewrite <- (append_empty_r u).
  apply Tiled_more; [exact member | apply Tiled_empty].
Qed.

Lemma AllWhite_Tiled (s : string) :
  JsString.AllWhite s <-> Tiled JsString.white_space s.
Proof.
  split; induction 1; (constructor; assumption) || (try assumption).
Qed.

Lemma strip_prefix_Some (p s r : string) :
  JsString.strip_prefix p s = Some r -> s = p ++ r.
Proof.
  revert s. induction p as [|a p IH]; intros [|b s] stripped; simpl in *;
    try congruence.
  all: try (injection stripped as <-; reflexivity).
  destruct (Ascii.eqb a b) eqn:same; [|discriminate].
  apply Ascii.eqb_eq in same. subst b. rewrite append_cons. f_equal. exact (IH _ stripped).
Qed.

Lemma strip_one_Some (units : list string) (s r : string) :
  JsString.strip_one units s = Some r -> exists u, In u units /\ s = u ++ r.
Proof.
  induction units as [|u units IH]; simpl; [discriminate|].
  destruct (JsString.strip_prefix u s) as [r'|] eqn:head.
  - intros [= ->]. exists u. split; [left; reflexivity | exact (strip_prefix_Some _ _ _ head)].
  - intros later. destruct (IH later) as (v & member & ->).
    exists v. split; [right; exact member | reflexivity].
Qed.

(** What [strip_all] removes is a run of units. *)
Lemma strip_all_split (units : list string) (fuel : nat) (s : string) :
  exists removed, Tiled units removed /\ s = removed ++ JsString.strip_all units fuel s.
Proof.
  revert s. induction fuel as [|fuel IH]; intros s; simpl.
  - exists EmptyString. split; [apply Tiled_empty | reflexivity].
  - destruct (JsString.strip_one units s) as [r|] eqn:head.
    + destruct (strip_one_Some _ _ _ head) as (u & member & ->).
      destruct (IH r) as (removed & tiled & rest).
      exists (u ++ removed). split; [apply Tiled_more; assumption|].
      rewrite append_assoc. f_equal. exact rest.
    + exists EmptyString. split; [apply Tiled_empty | reflexivity].
Qed.

Lemma rev_string_spec (acc s : string) :
  JsString.rev_string acc s = JsString.reverse s ++ acc.
Proof.
  unfold JsString.reverse. revert acc.
  induction s as [|c s IH]; intros acc; simpl; [reflexivity|].
  rewrite (IH (String c acc)), (IH (String c EmptyString)), append_assoc. reflexivity.
Qed.

Lemma reverse_cons (c : ascii) (s : string) :
  JsString.reverse (String c s) = JsString.reverse s ++ String c EmptyString.
Proof. unfold JsString.reverse at 1. simpl. apply rev_string_spec. Qed.

Lemma reverse_app (a b : string) :
  JsString.reverse (a ++ b) = JsString.reverse b ++ JsString.reverse a.
Proof.
  induction a as [|c a IH].
  - change (EmptyString ++ b) with b. change (JsString.reverse EmptyString) with EmptyString.
    rewrite append_empty_r. reflexivity.
  - rewrite append_cons, !reverse_cons, IH, append_assoc. reflexivity.
Qed.

Lemma reverse_involutive (s : string) : JsString.reverse (JsString.reverse s) = s.
Proof.
  induction s as [|c s IH]; [reflexivity|].
  rewrite reverse_cons, reverse_app, IH. reflexivity.
Qed.

Lemma reverse_empty (s : string) : JsString.reverse s = EmptyString -> s = EmptyString.
Proof.
  intros gone. rewrite <- (reverse_involutive s), gone. reflexivity.
Qed.

Lemma Tiled_reverse (units : list string) (t : string) :
  Tiled (map JsString.reverse units) t -> Tiled units (JsString.reverse t).
Proof.
  induction 1 as [|u' t member _ IH]; [apply Tiled_empty|].
  apply in_map_iff in member. destruct member as (u & <- & member).
  rewrite reverse_app, reverse_involutive.
  apply Tiled_app; [exact IH | apply Tiled_one; exact member].
Qed.

(** [trim] leaves nothing only of strings that are white space throughout. *)
Lemma trim_empty_white (s : string) :
  JsString.trim s = EmptyString -> JsString.AllWhite s.
Proof.
  unfold JsString.trim, JsString.trimEnd, JsString.trimStart. intros gone.
  apply reverse_empty in gone.
  destruct (strip_all_split JsString.white_space (String.length s) s)
    as (front & white_front & cut).
  set (rest := JsString.strip_all JsString.white_space (String.length s) s) in *.
  destruct (strip_all_split (map JsString.reverse JsString.white_space)
              (String.length rest) (JsString.reverse rest)) as (back & white_back & cut').
  rewrite gone, append_empty_r in cut'.
  apply AllWhite_Tiled. rewrite cut. apply Tiled_app; [exact white_front|].
  rewrite <- (reverse_involutive rest), cut'. apply Tiled_reverse. exact white_back.
Qed.

(** A query with anything but white space in it goes to [onSearch] as it was
    typed, untrimmed; [handleSubmit] ends as [onSearch] ends, thrown errors
    included, and the search bar's loading flag is off afterwards. *)
Theorem handleSubmit_passes_query (onSearch : string -> M unit) (w : World) :
  ~ JsString.AllWhite (query w) ->
  fst (SearchBar.handleSubmit onSearch w)
    = fst (onSearch (query w)
             (with_searchbar_loading true (with_default_prevented true w))) /\
  snd (SearchBar.handleSubmit onSearch w)
    = with_searchbar_loading false
        (snd (onSearch (query w)
                (with_searchbar_loading true (with_default_prevented true w)))).
Proof.
  intros typed.
  unfold SearchBar.handleSubmit, bind, modify, gets, SearchBar.setLoading, try_finally.
  cbn [query with_default_prevented].
  destruct (JsString.trim (query w)) eqn:trimmed.
  - exfalso. apply typed. apply trim_empty_white. exact trimmed.
  - cbn [JsString.truthy negb]. unfold modify. cbv beta iota zeta.
    destruct (onSearch (query w) _) as [[[]|e] w1]; split; reflexivity.
Qed.

Lemma handleSubmit_passes_query_witness :
  map url (sent (snd (SearchBar.handleSubmit App.onSearch
                        (Fixtures.fresh (Fixtures.answering 200) " attention ")))) =
  [ "http://localhost:8000/search?query=%20attention%20";
    "http://localhost:8000/build_graph?paper_id=W1&width=1280&height=720" ].
Proof.
  destruct (handleSubmit_passes_query App.onSearch
              (Fixtures.fresh (Fixtures.answering 200) " attention ")) as (_ & ran).
  - intros blank. apply trim_white in blank. vm_compute in blank. discriminate blank.
  - rewrite ran. reflexivity.
Defined.

(** ** What a request carries *)

Lemma append_cancel (p a b : string) : p ++ a = p ++ b -> a = b.
Proof.
  induction p as [|c p IH]; [trivial|].
  rewrite !append_cons. intros [= same]. exact (IH same).
Qed.

Lemma hex_digit_code (n : nat) :
  (n < 16)%nat ->
  nat_of_ascii (api.hex_digit n) = (if Nat.ltb n 10 then 48 + n else 55 + n)%nat.
Proof.
  intros small. unfold api.hex_digit. apply nat_ascii_embedding.
  destruct (Nat.ltb n 10) eqn:digit; [apply Nat.ltb_lt in digit|]; lia.
Qed.

Lemma hex_digit_inj (n m : nat) :
  (n < 16)%nat -> (m < 16)%nat -> api.hex_digit n = api.hex_digit m -> n = m.
Proof.
  intros hn hm same. apply (f_equal nat_of_ascii) in same.
  rewrite (hex_digit_code n hn), (hex_digit_code m hm) in same.
  destruct (Nat.ltb n 10) eqn:dn, (Nat.ltb m 10) eqn:dm;
    try apply Nat.ltb_lt in dn; try apply Nat.ltb_lt in dm;
    try apply Nat.ltb_ge in dn; try apply Nat.ltb_ge in dm; lia.
Qed.

Lemma hex_digit_unreserved (n : nat) :
  (n < 16)%nat -> api.unreserved (api.hex_digit n) = true.
Proof.
  intros small.
  do 16 (destruct n as [|n]; [reflexivity|]). lia.
Qed.

Lemma unreserved_not_percent (c : ascii) : api.unreserved c = true -> c <> "%"%char.
Proof. intros safe ->. vm_compute in safe. discriminate safe. Qed.

Lemma byte_halves (c : ascii) :
  (nat_of_ascii c / 16 < 16)%nat /\ (nat_of_ascii c mod 16 < 16)%nat.
Proof.
  pose proof (nat_ascii_bounded c) as bounded. split.
  - apply Nat.Div0.div_lt_upper_bound. lia.
  - apply Nat.mod_upper_bound. lia.
Qed.

Lemma encodeURIComponent_cons (c : ascii) (s : string) :
  api.encodeURIComponent (String c s) =
  if api.unreserved c then String c (api.encodeURIComponent s)
  else String "%" (String (api.hex_digit (nat_of_ascii c / 16))
         (String (api.hex_digit (nat_of_ascii c mod 16)) (api.encodeURIComponent s))).
Proof. reflexivity. Qed.

Lemma percent_escape_inj (h l h' l' : ascii) (r r' : string) :
  String "%" (String h (String l r)) = String "%" (String h' (String l' r')) ->
  h = h' /\ l = l' /\ r = r'.
Proof. intros same. injection same as -> -> ->. repeat split. Qed.

Lemma encodeURIComponent_inj (s1 s2 : string) :
  api.encodeURIComponent s1 = api.encodeURIComponent s2 -> s1 = s2.
Proof.
  revert s2. induction s1 as [|c1 s1 IH]; intros [|c2 s2];
    rewrite ?encodeURIComponent_cons;
    change (api.encodeURIComponent EmptyString) with EmptyString.
  - reflexivity.
  - destruct (api.unreserved c2); discriminate.
  - destruct (api.unreserved c1); discriminate.
  - destruct (api.unreserved c1) eqn:u1, (api.unreserved c2) eqn:u2.
    + intros [= -> same]. f_equal. exact (IH _ same).
    + intros [= -> _]. exfalso. exact (unreserved_not_percent _ u1 eq_refl).
    + intros [= <- _]. exfalso. exact (unreserved_not_percent _ u2 eq_refl).
    + intros same. apply percent_escape_inj in same. destruct same as (high & low & same).
      destruct (byte_halves c1) as [h1 l1], (byte_halves c2) as [h2 l2].
      apply hex_digit_inj in high; [|assumption..].
      apply hex_digit_inj in low; [|assumption..].
      f_equal; [|exact (IH _ same)].
      rewrite <- (ascii_nat_embedding c1), <- (ascii_nat_embedding c2).
      f_equal.
      rewrite (Nat.div_mod_eq (nat_of_ascii c1) 16), (Nat.div_mod_eq (nat_of_ascii c2) 16).
      rewrite high, low. reflexivity.
Qed.

Lemma encodeURIComponent_alphabet (s : string) (c : ascii) :
  In c (list_ascii_of_string (api.encodeURIComponent s)) ->
  api.unreserved c = true \/ c = "%"%char.
Proof.
  induction s as [|a s IH]; [intros []|].
  rewrite encodeURIComponent_cons.
  destruct (api.unreserved a) eqn:safe; cbn [list_ascii_of_string In].
  - intros [<- | later]; [left; exact safe | exact (IH later)].
  - destruct (byte_halves a) as [high low].
    intros [<- | [<- | [<- | later]]].
    + right. reflexivity.
    + left. apply hex_digit_unreserved. exact high.
    + left. apply hex_digit_unreserved. exact low.
    + exact (IH later).
Qed.

(** The search URL carries the query whole and nothing else: different
    queries give different requests, and after [query=] the URL holds only
    letters, digits, [- _ . ! ~ * ' ( )] and percent escapes, so no query
    text can start a second parameter or a fragment. *)
Theorem search_request_carries_query :
  (forall q q', api.search_request q = api.search_request q' -> q = q') /\
  (forall q, exists rest,
      url (api.search_request q) = "http://localhost:8000/search?query=" ++ rest /\
      forall c, In c (list_ascii_of_string rest) ->
                api.unreserved c = true \/ c = "%"%char).
Proof.
  split.
  - intros q q' same. apply (f_equal url) in same.
    unfold api.search_request, api.GET, api.API_BASE_URL in same. cbn [url] in same.
    apply append_cancel in same. apply append_cancel in same.
    exact (encodeURIComponent_inj _ _ same).
  - intros q. exists (api.encodeURIComponent q). split; [reflexivity|].
    intros c. apply encodeURIComponent_alphabet.
Qed.

Lemma read_escape_char (c : ascii) (rest : string) :
  JsonReader.read_string (api.escape_char c ++ rest)
    = JsonReader.push c (JsonReader.read_string rest).
Proof. destruct c as [[] [] [] [] [] [] [] []]; reflexivity. Qed.

Lemma read_escape (s rest : string) :
  JsonReader.read_string (api.escape s ++ api.double_quote ++ rest) = Some (s, rest).
Proof.
  induction s as [|c s IH]; [reflexivity|].
  change (api.escape (String c s)) with (api.escape_char c ++ api.escape s).
  rewrite append_assoc, read_escape_char, IH. reflexivity.
Qed.

Lemma quote_inj (a a' t t' : string) :
  api.quote a ++ t = api.quote a' ++ t' -> a = a' /\ t = t'.
Proof.
  unfold api.quote. rewrite !append_assoc. intros same.
  apply append_cancel in same. apply (f_equal JsonReader.read_string) in same.
  rewrite !read_escape in same. injection same as -> ->. split; reflexivity.
Qed.

Lemma quote_head (a t : string) :
  exists r, api.quote a ++ t = String (ascii_of_nat 34) r.
Proof. unfold api.quote. rewrite append_assoc. eexists. reflexivity. Qed.

Lemma stringify_fields_inj (f f' : list (string * string)) :
  api.stringify_fields f ++ "}" = api.stringify_fields f' ++ "}" -> f = f'.
Proof.
  revert f'. induction f as [|[k v] f IH]; intros [|[k' v'] f'].
  - reflexivity.
  - change (api.stringify_fields []) with EmptyString.
    assert (shape : exists t, api.stringify_fields ((k', v') :: f') ++ "}"
                              = api.quote k' ++ t).
    { destruct f' as [|p f']; cbn [api.stringify_fields]; rewrite !append_assoc;
        eexists; reflexivity. }
    destruct shape as (t & ->). destruct (quote_head k' t) as (r & ->). discriminate.
  - change (api.stringify_fields []) with EmptyString.
    assert (shape : exists t, api.stringify_fields ((k, v) :: f) ++ "}"
                              = api.quote k ++ t).
    { destruct f as [|p f]; cbn [api.stringify_fields]; rewrite !append_assoc;
        eexists; reflexivity. }
    destruct shape as (t & ->). destruct (quote_head k t) as (r & ->). discriminate.
  - assert (shape : forall k v f,
               api.stringify_fields ((k, v) :: f) ++ "}"
               = api.quote k ++ ":" ++ api.quote v
                   ++ match f with
                      | [] => "}"
                      | _ :: _ => "," ++ api.stringify_fields f ++ "}"
                      end).
    { intros k0 v0 [|[k1 v1] f0]; cbn [api.stringify_fields]; rewrite !append_assoc;
        reflexivity. }
    rewrite !shape. intros same.
    apply quote_inj in same. destruct same as [-> same].
    apply append_cancel in same.
    apply quote_inj in same. destruct same as [-> same].
    destruct f as [|p f], f' as [|p' f']; try discriminate same; [reflexivity|].
    apply (append_cancel ",") in same. rewrite (IH _ same). reflexivity.
Qed.

Lemma Some_eq {A} (a b : A) : Some a = Some b -> a = b.
Proof. intros same. injection same as ->. reflexivity. Qed.

Lemma JSON_stringify_inj (f f' : list (string * string)) :
  api.JSON_stringify f = api.JSON_stringify f' -> f = f'.
Proof.
  unfold api.JSON_stringify. intros same.
  apply append_cancel in same. exact (stringify_fields_inj _ _ same).
Qed.

(** The bodies posted to [summarize_connection] and [explain_abstract]
    determine the abstracts they were made from: quotes, backslashes and
    control characters in an abstract are escaped so that two different
    inputs never give the same request. *)
Theorem posted_bodies_determine_abstracts :
  (forall a b a' b',
      api.summarizeConnection_request a b = api.summarizeConnection_request a' b' ->
      a = a' /\ b = b') /\
  (forall a a', api.explainAbstract_request a = api.explainAbstract_request a' -> a = a').
Proof.
  split.
  - intros a b a' b' same. apply (f_equal body) in same.
    unfold api.summarizeConnection_request in same. cbn [body] in same.
    apply Some_eq in same. apply JSON_stringify_inj in same.
    injection same as -> ->. split; reflexivity.
  - intros a a' same. apply (f_equal body) in same.
    unfold api.explainAbstract_request in same. cbn [body] in same.
    apply Some_eq in same. apply JSON_stringify_inj in same.
    injection same as ->. reflexivity.
Qed.

(** ** Labels that are not numbers *)

Lemma nothing_reaches_NaN (t : JsNumber.number) : JsNumber.ge JsNumber.NaN t = false.
Proof.
  unfold JsNumber.ge, JsNumber.NaN. rewrite FloatAxioms.leb_spec.
  change (Prim2SF PrimFloat.nan) with S754_nan.
  unfold SFleb, SFcompare. destruct (Prim2SF t); reflexivity.
Qed.

(** An edge whose label does not begin with a number is displayed at no
    threshold, not even at 0: [parseFloat] gives [NaN], and [NaN] is at
    least nothing. *)
Theorem filteredEdges_hides_unreadable (edges : list Edge) (t : JsNumber.number)
    (e : Edge) (l : string) :
  edge_label e = Some l ->
  l <> EmptyString ->
  JsNumber.parseFloat l = JsNumber.NaN ->
  ~ In e (App.filteredEdges edges t).
Proof.
  intros labelled nonempty unreadable shown.
  apply filteredEdges_In in shown. destruct shown as [_ passes].
  rewrite labelled, or_else_cases in passes.
  destruct l as [|c l]; [contradiction|].
  rewrite unreadable, nothing_reaches_NaN in passes. discriminate passes.
Qed.

Lemma filteredEdges_hides_unreadable_witness :
  ~ In (Fixtures.link "W2" (Some "n/a"))
       (App.filteredEdges [Fixtures.link "W2" (Some "n/a")] PrimFloat.zero).
Proof.
  apply (filteredEdges_hides_unreadable _ _ _ "n/a").
  - reflexivity.
  - discriminate.
  - vm_compute. reflexivity.
Defined.

(** ** Moving the slider *)

Lemma SFleb_trans (x y z : spec_float) :
  SFleb x y = true -> SFleb y z = true -> SFleb x z = true.
Proof.
  unfold SFleb, SFcompare.
  destruct x as [[]|[]| |[] mx ex], y as [[]|[]| |[] my ey], z as [[]|[]| |[] mz ez];
    try (intros; reflexivity); try (intros; discriminate);
    change (Pos.compare_cont Eq) with Pos.compare;
    repeat match goal with
           | |- context [Z.compare ?a ?b] => destruct (Z.compare_spec a b)
           | |- context [Pos.compare ?a ?b] => destruct (Pos.compare_spec a b)
           end;
    cbn [CompOpp]; intros; try reflexivity; try discriminate; subst; lia.
Qed.

Lemma ge_trans (w t2 t1 : JsNumber.number) :
  JsNumber.ge w t2 = true -> JsNumber.ge t2 t1 = true -> JsNumber.ge w t1 = true.
Proof.
  unfold JsNumber.ge. rewrite !FloatAxioms.leb_spec. intros above raised.
  exact (SFleb_trans _ _ _ raised above).
Qed.

(** Raising the threshold never brings an edge back: whatever is displayed
    at a threshold is displayed at every lower one. *)
Theorem filteredEdges_shrink_with_threshold (edges : list Edge)
    (lower higher : JsNumber.number) (e : Edge) :
  JsNumber.ge higher lower = true ->
  In e (App.filteredEdges edges higher) -> In e (App.filteredEdges edges lower).
Proof.
  intros raised shown. apply filteredEdges_In in shown. destruct shown as [member passes].
  apply filteredEdges_In. split; [exact member|].
  exact (ge_trans _ _ _ passes raised).
Qed.

Lemma filteredEdges_shrink_with_threshold_witness :
  In (Fixtures.link "W2" (Some "0.67"))
     (App.filteredEdges (graph_edges Fixtures.graph) (JsNumber.parseFloat "0.05")).
Proof.
  apply (filteredEdges_shrink_with_threshold _ (JsNumber.parseFloat "0.05")
           (JsNumber.parseFloat "0.5")).
  - vm_compute. reflexivity.
  - vm_compute. left. reflexivity.
Defined.

(** ** The timeline layout *)

Section TimelineFacts.

Import Timeline.

Lemma nodesByYear_snoc (nodes : list FlowNode) (n : FlowNode) :
  nodesByYear_of (nodes ++ [n]) = group (nodesByYear_of nodes) n.
Proof. unfold nodesByYear_of. rewrite fold_left_app. reflexivity. Qed.

(** The entry of a year holds the nodes of that year, in their order. *)
Lemma nodesByYear_lookup (nodes : list FlowNode) (y : Z) :
  nodesByYear_of nodes !! y =
  match List.filter (of_year y) nodes with
  | [] => None
  | ps => Some ps
  end.
Proof.
  induction nodes as [|n nodes IH] using rev_ind; [reflexivity|].
  rewrite nodesByYear_snoc, List.filter_app. unfold group. cbn [List.filter].
  unfold of_year at 2.
  destruct (1900 <? parsed_year n) eqn:valid; cbn [andb].
  - destruct (Z.eqb_spec (parsed_year n) y) as [-> | other].
    + rewrite lookup_insert_eq, IH.
      destruct (List.filter (of_year y) nodes); reflexivity.
    + rewrite lookup_insert_ne by exact other. rewrite IH, app_nil_r. reflexivity.
  - rewrite IH, app_nil_r. reflexivity.
Qed.

Lemma of_year_spec (y : Z) (n : FlowNode) :
  of_year y n = true <-> 1900 < y /\ parsed_year n = y.
Proof.
  unfold of_year. rewrite andb_true_iff, Z.ltb_lt, Z.eqb_eq. intuition congruence.
Qed.

Lemma nodesByYear_entry (nodes : list FlowNode) (n : FlowNode) :
  In n nodes -> 1900 < parsed_year n ->
  nodesByYear_of nodes !! parsed_year n
    = Some (List.filter (of_year (parsed_year n)) nodes) /\
  In n (List.filter (of_year (parsed_year n)) nodes).
Proof.
  intros member valid.
  assert (kept : In n (List.filter (of_year (parsed_year n)) nodes)).
  { apply List.filter_In. split; [exact member|]. apply of_year_spec. split; [exact valid | reflexivity]. }
  split; [|exact kept].
  rewrite nodesByYear_lookup.
  destruct (List.filter _ nodes); [destruct kept | reflexivity].
Qed.

Lemma nodesByYear_is_Some (nodes : list FlowNode) (y : Z) :
  is_Some (nodesByYear_of nodes !! y) <->
  1900 < y /\ exists n, In n nodes /\ parsed_year n = y.
Proof.
  rewrite nodesByYear_lookup. split.
  - destruct (List.filter (of_year y) nodes) as [|n ps] eqn:found; intros [ps' some];
      [discriminate|].
    assert (member : In n (List.filter (of_year y) nodes)) by (rewrite found; left; reflexivity).
    apply List.filter_In in member. destruct member as [member holds].
    apply of_year_spec in holds. destruct holds as [valid same].
    split; [exact valid|]. exists n. split; assumption.
  - intros (valid & n & member & same).
    assert (kept : In n (List.filter (of_year y) nodes)).
    { apply List.filter_In. split; [exact member|]. apply of_year_spec. split; assumption. }
    destruct (List.filter _ nodes); [destruct kept | eexists; reflexivity].
Qed.

Lemma lower_Some (nodes : list FlowNode) (m : Z) :
  is_Some (fold_left lower nodes (Some m)).
Proof.
  revert m. induction nodes as [|n nodes IH]; intros m; [eexists; reflexivity|].
  cbn [fold_left]. unfold lower at 2.
  destruct (1900 <? parsed_year n); [|apply IH].
  destruct (parsed_year n <? m); apply IH.
Qed.

Lemma minYear_None (nodes : list FlowNode) :
  minYear_of nodes = None <-> forall n, In n nodes -> parsed_year n <= 1900.
Proof.
  unfold minYear_of. induction nodes as [|n nodes IH].
  - split; [intros _ n [] | reflexivity].
  - cbn [fold_left]. unfold lower at 2.
    destruct (1900 <? parsed_year n) eqn:valid.
    + split.
      * intros none. destruct (lower_Some nodes (parsed_year n)) as [m some]. congruence.
      * intros all. apply Z.ltb_lt in valid. specialize (all n (or_introl eq_refl)). lia.
    + rewrite IH. apply Z.ltb_ge in valid. split.
      * intros all k [<- | later]; [exact valid | exact (all k later)].
      * intros all k later. apply all. right. exact later.
Qed.

End TimelineFacts.

Section TimelineYears.

Import Timeline.

Lemma years_of_elem (m : gmap Z (list FlowNode)) (y : Z) :
  y ∈ years_of m <-> is_Some (m !! y).
Proof.
  unfold years_of. rewrite merge_sort_Permutation.
  change (map fst (map_to_list m)) with (fst <$> map_to_list m).
  rewrite list_elem_of_fmap. split.
  - intros ([k ps] & -> & member). apply elem_of_map_to_list in member.
    eexists. exact member.
  - intros [ps found]. exists (y, ps). split; [reflexivity|].
    apply elem_of_map_to_list. exact found.
Qed.

Lemma strictly_sorted (l : list Z) :
  StronglySorted Z.le l -> NoDup l -> StronglySorted Z.lt l.
Proof.
  induction 1 as [|a l sorted IH above]; intros distinct; [constructor|].
  apply NoDup_cons in distinct. destruct distinct as [fresh distinct].
  constructor; [exact (IH distinct)|].
  rewrite Forall_forall in above |- *. intros b member.
  specialize (above b member).
  assert (a <> b) by (intros ->; exact (fresh member)). lia.
Qed.

Lemma years_of_sorted (m : gmap Z (list FlowNode)) : StronglySorted Z.lt (years_of m).
Proof.
  apply strictly_sorted.
  - apply Sorted_StronglySorted; [intros a b c; apply Z.le_trans|].
    unfold years_of. apply Sorted_merge_sort. intros a b. lia.
  - unfold years_of. rewrite merge_sort_Permutation. apply NoDup_fst_map_to_list.
Qed.

Lemma number_other (years : list Z) (k : nat) (m : gmap Z nat) (y : Z) :
  y ∉ years -> number k years m !! y = m !! y.
Proof.
  revert k m. induction years as [|a years IH]; intros k m absent; [reflexivity|].
  cbn [number]. apply not_elem_of_cons in absent. destruct absent as [other absent].
  rewrite (IH _ _ absent). apply lookup_insert_ne. congruence.
Qed.

Lemma number_lookup (years : list Z) (k : nat) (m : gmap Z nat) (j : nat) (y : Z) :
  NoDup years -> years !! j = Some y -> number k years m !! y = Some (k + j)%nat.
Proof.
  revert k m j. induction years as [|a years IH]; intros k m j distinct found;
    [discriminate|].
  apply NoDup_cons in distinct. destruct distinct as [fresh distinct].
  cbn [number]. destruct j as [|j].
  - injection found as ->. rewrite (number_other _ _ _ _ fresh), lookup_insert_eq.
    f_equal. lia.
  - rewrite (IH _ _ j distinct found). f_equal. lia.
Qed.

Lemma sorted_lookup_lt (l : list Z) (i j : nat) (a b : Z) :
  StronglySorted Z.lt l -> l !! i = Some a -> l !! j = Some b -> (i < j)%nat -> a < b.
Proof.
  intros sorted. revert i j. induction sorted as [|c l sorted IH above]; intros i j fa fb lt;
    [discriminate|].
  destruct j as [|j]; [lia|]. cbn in fb. destruct i as [|i].
  - injection fa as ->. rewrite Forall_forall in above. apply above.
    apply list_elem_of_lookup. eexists. exact fb.
  - cbn in fa. apply (IH i j fa fb). lia.
Qed.

(** Every valid year has a column; later years have later columns. *)
Lemma column_of_year (nodes : list FlowNode) (y : Z) :
  is_Some (nodesByYear_of nodes !! y) ->
  exists i, years_of (nodesByYear_of nodes) !! i = Some y /\
            column (yearToIndex_of (years_of (nodesByYear_of nodes))) y
              = Some (Z.of_nat i * 250).
Proof.
  intros present. apply years_of_elem in present.
  apply list_elem_of_lookup in present. destruct present as [i found].
  exists i. split; [exact found|].
  unfold column, yearToIndex_of.
  rewrite (number_lookup _ O ∅ i y); [reflexivity| |exact found].
  pose proof (years_of_sorted (nodesByYear_of nodes)) as sorted.
  clear found. induction sorted as [|a l sorted IH above]; constructor; [|exact IH].
  intros member. rewrite Forall_forall in above. specialize (above a member). lia.
Qed.

End TimelineYears.

Section TimelineSpots.

Import Timeline.

Lemma findIndex_found (p : FlowNode -> bool) (l : list FlowNode) (n : FlowNode) :
  In n l -> p n = true ->
  exists i m, findIndex p l = Z.of_nat i /\ l !! i = Some m /\ p m = true.
Proof.
  induction l as [|a l IH]; intros member holds; [destruct member|].
  cbn [findIndex]. destruct (p a) eqn:first.
  - exists O, a. repeat split. exact first.
  - destruct member as [-> | later]; [congruence|].
    destruct (IH later holds) as (i & m & -> & found & good).
    exists (S i), m. split; [|split; assumption].
    destruct (Z.ltb_spec (Z.of_nat i) 0); lia.
Qed.

Lemma row_of_member (ps : list FlowNode) (n : FlowNode) :
  In n ps ->
  exists i m, ps !! i = Some m /\ flow_id m = flow_id n /\
    row ps (flow_id n)
      = (- ((Z.of_nat (List.length ps) - 1) * 100)) / 2 + Z.of_nat i * 100.
Proof.
  intros member.
  destruct (findIndex_found (fun k => String.eqb (flow_id k) (flow_id n)) ps n member)
    as (i & m & index & found & same); [apply String.eqb_refl|].
  exists i, m. split; [exact found|]. split; [apply String.eqb_eq; exact same|].
  unfold row. rewrite index. reflexivity.
Qed.

Lemma spot_of_member (nodes : list FlowNode) (n : FlowNode) :
  In n nodes -> 1900 < parsed_year n ->
  exists i,
    years_of (nodesByYear_of nodes) !! i = Some (parsed_year n) /\
    spot nodes n
      = Some (Z.of_nat i * 250,
              row (List.filter (of_year (parsed_year n)) nodes) (flow_id n)).
Proof.
  intros member valid.
  destruct (nodesByYear_entry nodes n member valid) as [entry _].
  destruct (column_of_year nodes (parsed_year n)) as (i & found & col);
    [rewrite entry; eexists; reflexivity|].
  exists i. split; [exact found|]. unfold spot. cbv zeta. rewrite col, entry. reflexivity.
Qed.

Lemma years_index_order (nodes : list FlowNode) (i j : nat) (a b : Z) :
  years_of (nodesByYear_of nodes) !! i = Some a ->
  years_of (nodesByYear_of nodes) !! j = Some b ->
  ((i < j)%nat <-> a < b) /\ (i = j <-> a = b).
Proof.
  intros fa fb. pose proof (years_of_sorted (nodesByYear_of nodes)) as sorted.
  assert (up : forall i j a b,
             years_of (nodesByYear_of nodes) !! i = Some a ->
             years_of (nodesByYear_of nodes) !! j = Some b -> (i < j)%nat -> a < b)
    by (intros; eapply sorted_lookup_lt; eassumption).
  destruct (Nat.lt_trichotomy i j) as [lt | [-> | gt]].
  - pose proof (up _ _ _ _ fa fb lt). split; split; intros; lia.
  - rewrite fa in fb. injection fb as ->. split; split; intros; (lia || reflexivity).
  - pose proof (up _ _ _ _ fb fa gt). split; split; intros; lia.
Qed.

End TimelineSpots.

(** On the timeline a paper of an earlier year stands strictly to the left
    of a paper of a later year, and papers of one year share a column. *)
Theorem timeline_columns_follow_years (nodes : list Timeline.FlowNode)
    (a b : Timeline.FlowNode) :
  In a nodes -> In b nodes ->
  1900 < Timeline.parsed_year a -> 1900 < Timeline.parsed_year b ->
  exists xa ya xb yb,
    Timeline.spot nodes a = Some (xa, ya) /\
    Timeline.spot nodes b = Some (xb, yb) /\
    (xa < xb <-> Timeline.parsed_year a < Timeline.parsed_year b) /\
    (xa = xb <-> Timeline.parsed_year a = Timeline.parsed_year b).
Proof.
  intros ma mb va vb.
  destruct (spot_of_member nodes a ma va) as (i & fa & ->).
  destruct (spot_of_member nodes b mb vb) as (j & fb & ->).
  destruct (years_index_order nodes i j _ _ fa fb) as [lt eq].
  eexists _, _, _, _. split; [reflexivity|]. split; [reflexivity|].
  split; [rewrite <- lt | rewrite <- eq]; lia.
Qed.

Lemma timeline_columns_follow_years_witness :
  match Timeline.spot Timeline.sample (Timeline.dated "W2" (Some 2015)),
        Timeline.spot Timeline.sample (Timeline.dated "W4" (Some 2017)) with
  | Some (xa, _), Some (xb, _) => xa < xb
  | _, _ => False
  end.
Proof.
  destruct (timeline_columns_follow_years Timeline.sample
              (Timeline.dated "W2" (Some 2015)) (Timeline.dated "W4" (Some 2017)))
    as (xa & ya & xb & yb & sa & sb & lt & _).
  - right. left. reflexivity.
  - do 3 right. left. reflexivity.
  - reflexivity.
  - reflexivity.
  - rewrite sa, sb. apply lt. reflexivity.
Defined.

(** Two papers with valid years and different ids never land on the same
    spot of the timeline: they differ in column when their years differ and
    by a multiple of 100 in row when they share a year. *)
Theorem timeline_spots_differ (nodes : list Timeline.FlowNode)
    (a b : Timeline.FlowNode) :
  In a nodes -> In b nodes ->
  1900 < Timeline.parsed_year a -> 1900 < Timeline.parsed_year b ->
  Timeline.flow_id a <> Timeline.flow_id b ->
  exists xa ya xb yb,
    Timeline.spot nodes a = Some (xa, ya) /\
    Timeline.spot nodes b = Some (xb, yb) /\
    (xa, ya) <> (xb, yb) /\
    (Timeline.parsed_year a = Timeline.parsed_year b ->
       exists k, k <> 0 /\ ya - yb = 100 * k).
Proof.
  intros ma mb va vb distinct.
  destruct (spot_of_member nodes a ma va) as (i & fa & sa).
  destruct (spot_of_member nodes b mb vb) as (j & fb & sb).
  destruct (years_index_order nodes i j _ _ fa fb) as [_ eq].
  destruct (nodesByYear_entry nodes a ma va) as [_ ina].
  destruct (nodesByYear_entry nodes b mb vb) as [_ inb].
  destruct (row_of_member _ a ina) as (ka & na & founda & ida & rowa).
  destruct (row_of_member _ b inb) as (kb & nb & foundb & idb & rowb).
  assert (same_year : Timeline.parsed_year a = Timeline.parsed_year b ->
                      exists k, k <> 0 /\
                        Timeline.row (List.filter (Timeline.of_year (Timeline.parsed_year a)) nodes)
                          (Timeline.flow_id a)
                        - Timeline.row (List.filter (Timeline.of_year (Timeline.parsed_year b)) nodes)
                            (Timeline.flow_id b) = 100 * k).
  { intros same. rewrite rowa, rowb. rewrite <- same in *.
    exists (Z.of_nat ka - Z.of_nat kb). split; [|lia].
    intros zero. assert (ka = kb) by lia. subst kb.
    rewrite founda in foundb. injection foundb as ->. congruence. }
  eexists _, _, _, _. split; [exact sa|]. split; [exact sb|]. split; [|exact same_year].
  intros [= cols rows].
  assert (same_col : i = j) by lia.
  destruct (same_year (proj1 eq same_col)) as (k & nonzero & gap). lia.
Qed.

Lemma timeline_spots_differ_witness :
  match Timeline.spot Timeline.sample (Timeline.dated "W1" (Some 2017)),
        Timeline.spot Timeline.sample (Timeline.dated "W4" (Some 2017)) with
  | Some sa, Some sb => sa <> sb
  | _, _ => False
  end.
Proof.
  destruct (timeline_spots_differ Timeline.sample
              (Timeline.dated "W1" (Some 2017)) (Timeline.dated "W4" (Some 2017)))
    as (xa & ya & xb & yb & sa & sb & apart & _).
  - left. reflexivity.
  - do 3 right. left. reflexivity.
  - reflexivity.
  - reflexivity.
  - discriminate.
  - rewrite sa, sb. exact apart.
Defined.

Section TimelineOutput.

Import Timeline.

Lemma Forall2_refine {A B} (P R : A -> B -> Prop) (l : list A) (k : list B) :
  Forall2 P l k -> (forall a b, In a l -> P a b -> R a b) -> Forall2 R l k.
Proof.
  induction 1 as [|a b l k holds rest IH]; intros refine; constructor.
  - apply refine; [left; reflexivity | exact holds].
  - apply IH. intros a' b' member. apply refine. right. exact member.
Qed.

Lemma place_member (nodes : list FlowNode) (n : FlowNode) :
  In n nodes ->
  exists p,
    place (nodesByYear_of nodes) (yearToIndex_of (years_of (nodesByYear_of nodes))) n
      = Some p /\
    (parsed_year n <= 1900 -> p = n) /\
    (1900 < parsed_year n ->
     exists m d x y,
       n = Paper m d /\ spot nodes n = Some (x, y) /\
       p = Paper (move m {| pos_x := of_int x; pos_y := of_int y |}) (Some false)).
Proof.
  intros member. destruct n as [m d | y p dr].
  - unfold place. cbv zeta.
    destruct (Z.leb_spec (parsed_year (Paper m d)) 1900) as [old | valid].
    + exists (Paper m d). split; [reflexivity|]. split; [reflexivity | lia].
    + destruct (spot_of_member nodes _ member valid) as (i & found & landed).
      destruct (nodesByYear_entry nodes _ member valid) as [entry _].
      destruct (column_of_year nodes (parsed_year (Paper m d))) as (i' & found' & col);
        [rewrite entry; eexists; reflexivity|].
      rewrite entry, col. eexists. split; [reflexivity|]. split; [lia|].
      intros _. exists m, d. eexists _, _. split; [reflexivity|].
      split; [|reflexivity].
      unfold spot. cbv zeta. rewrite col, entry. reflexivity.
  - exists (YearLabel y p dr). split; [reflexivity|]. split; [reflexivity|].
    cbn [parsed_year]. lia.
Qed.

Lemma labels_by_index (nodes : list FlowNode) :
  map (label_node (yearToIndex_of (years_of (nodesByYear_of nodes))))
    (years_of (nodesByYear_of nodes))
  = imap (fun i y => YearLabel y {| pos_x := of_int (Z.of_nat i * 250);
                                    pos_y := of_int 400 |} false)
      (years_of (nodesByYear_of nodes)).
Proof.
  rewrite <- (imap_const (label_node _)). apply imap_ext. intros i y found.
  destruct (column_of_year nodes y) as (j & found' & col).
  { apply years_of_elem. apply list_elem_of_lookup. eexists. exact found. }
  destruct (years_index_order nodes i j y y found found') as [_ same].
  assert (i = j) as -> by (apply same; reflexivity).
  unfold label_node. cbn [const]. rewrite col. reflexivity.
Qed.

Lemma no_years (nodes : list FlowNode) :
  minYear_of nodes = None -> years_of (nodesByYear_of nodes) = [].
Proof.
  intros none. destruct (years_of (nodesByYear_of nodes)) as [|y l] eqn:some; [reflexivity|].
  assert (listed : y ∈ years_of (nodesByYear_of nodes)) by (rewrite some; left).
  apply years_of_elem, nodesByYear_is_Some in listed.
  destruct listed as (valid & n & member & same).
  pose proof (proj1 (minYear_None nodes) none n member). lia.
Qed.

(** The layout runs through: every node is placed. *)
Lemma timeline_run (nodes : list FlowNode) :
  exists placed,
    getTimelineLayout nodes =
    Some (placed ++ map (label_node (yearToIndex_of (years_of (nodesByYear_of nodes))))
                      (years_of (nodesByYear_of nodes)))%list /\
    Forall2 (fun n p =>
               place (nodesByYear_of nodes)
                 (yearToIndex_of (years_of (nodesByYear_of nodes))) n = Some p)
      nodes placed.
Proof.
  unfold getTimelineLayout. cbv zeta.
  destruct (minYear_of nodes) as [lowest|] eqn:any.
  - destruct (mapM _ nodes) as [placed|] eqn:mapped.
    + exists placed. split; [reflexivity|]. apply mapM_Some. exact mapped.
    + exfalso. apply eq_None_not_Some in mapped. apply mapped.
      apply mapM_is_Some. apply Forall_forall. intros n member.
      apply list_elem_of_In in member.
      destruct (place_member nodes n member) as (p & placed & _).
      eexists. exact placed.
  - exists nodes.
    assert (map (label_node (yearToIndex_of (years_of (nodesByYear_of nodes))))
              (years_of (nodesByYear_of nodes)) = []) as ->
      by (rewrite (no_years nodes any); reflexivity).
    rewrite app_nil_r. split; [reflexivity|].
    pose proof (proj1 (minYear_None nodes) any) as old.
    assert (same : Forall2 eq nodes nodes) by (clear; induction nodes; constructor; auto).
    apply (Forall2_refine _ _ _ _ same). intros n p member <-.
    destruct (place_member nodes n member) as (p & placed & unmoved & _).
    cbv beta. rewrite placed, (unmoved (old n member)). reflexivity.
Qed.

End TimelineOutput.

(** The timeline layout never fails and loses no paper. Its result is the
    input nodes in their order, where a node without a valid year (after
    1900) is untouched and a paper with one is moved to its spot and made
    undraggable, followed by one label per distinct valid year, in ascending
    order of the years, each under its column at height 400. *)
Theorem getTimelineLayout_places_every_paper (nodes : list Timeline.FlowNode) :
  exists placed,
    Timeline.getTimelineLayout nodes =
    Some (placed ++
          imap (fun i y =>
                  Timeline.YearLabel y
                    {| pos_x := Timeline.of_int (Z.of_nat i * 250);
                       pos_y := Timeline.of_int 400 |} false)
            (Timeline.years_of (Timeline.nodesByYear_of nodes)))%list /\
    Forall2
      (fun n p =>
         (Timeline.parsed_year n <= 1900 -> p = n) /\
         (1900 < Timeline.parsed_year n ->
          exists m d x y,
            n = Timeline.Paper m d /\ Timeline.spot nodes n = Some (x, y) /\
            p = Timeline.Paper
                  (Timeline.move m {| pos_x := Timeline.of_int x;
                                      pos_y := Timeline.of_int y |}) (Some false)))
      nodes placed /\
    StronglySorted Z.lt (Timeline.years_of (Timeline.nodesByYear_of nodes)) /\
    (forall y, y ∈ Timeline.years_of (Timeline.nodesByYear_of nodes) <->
               1900 < y /\ exists n, In n nodes /\ Timeline.parsed_year n = y).
Proof.
  assert (years : StronglySorted Z.lt (Timeline.years_of (Timeline.nodesByYear_of nodes)) /\
                  (forall y, y ∈ Timeline.years_of (Timeline.nodesByYear_of nodes) <->
                     1900 < y /\ exists n, In n nodes /\ Timeline.parsed_year n = y)).
  { split; [apply years_of_sorted|]. intros y.
    rewrite years_of_elem. apply nodesByYear_is_Some. }
  destruct (timeline_run nodes) as (placed & run & each).
  exists placed. rewrite run, labels_by_index. split; [reflexivity|].
  split; [|exact years].
  apply (Forall2_refine _ _ _ _ each). intros n p member placed_n.
  destruct (place_member nodes n member) as (p' & placed' & facts).
  rewrite placed_n in placed'. injection placed' as <-. exact facts.
Qed.

Section TimelineToggle.

Import Timeline.

Lemma is_label_YearLabel (y : Z) (p : Position) (d : bool) :
  is_label (YearLabel y p d) = true.
Proof. unfold is_label, flow_id. destruct (api.show y); reflexivity. Qed.

Lemma ordinary_is_Paper (n : FlowNode) :
  is_label n = false -> exists m d, n = Paper m d.
Proof.
  destruct n as [m d | y p d]; [eexists _, _; reflexivity|].
  rewrite is_label_YearLabel. discriminate.
Qed.

Lemma papers_only_all (l : list FlowNode) :
  Forall (fun n => is_label n = false) l -> papers_only l = l.
Proof.
  induction 1 as [|n l ordinary _ IH]; [reflexivity|].
  unfold papers_only in *. cbn [List.filter]. rewrite ordinary, IH. reflexivity.
Qed.

Lemma papers_only_none (l : list FlowNode) :
  Forall (fun n => is_label n = true) l -> papers_only l = [].
Proof.
  induction 1 as [|n l labelled _ IH]; [reflexivity|].
  unfold papers_only in *. cbn [List.filter]. rewrite labelled. exact IH.
Qed.

Lemma papers_only_ordinary (l : list FlowNode) :
  Forall (fun n => is_label n = false) (papers_only l).
Proof.
  apply Forall_forall. intros n member. apply list_elem_of_In in member.
  apply List.filter_In in member. destruct member as [_ kept].
  apply negb_true_iff in kept. exact kept.
Qed.

Lemma year_labels_are_labels {A} (f : nat -> A -> FlowNode) (l : list A) :
  (forall i a, exists y p d, f i a = YearLabel y p d) ->
  Forall (fun n => exists y p d, n = YearLabel y p d) (imap f l).
Proof.
  revert f. induction l as [|a l IH]; intros f shape; [constructor|].
  cbn [imap]. constructor; [apply shape|]. apply IH. intros i b. apply shape.
Qed.

(** What the layout returns, split into the moved papers and the labels. *)
Lemma timeline_parts (nodes : list FlowNode) :
  exists placed labels,
    getTimelineLayout nodes = Some (placed ++ labels)%list /\
    Forall2 (fun n p =>
               flow_id p = flow_id n /\
               forall m d, n = Paper m d ->
                 exists q d', p = Paper (move m q) d') nodes placed /\
    Forall (fun n => exists y p d, n = YearLabel y p d) labels.
Proof.
  destruct (timeline_run nodes) as (placed & run & each).
  eexists placed, _. split; [exact run|]. split.
  - apply (Forall2_refine _ _ _ _ each). intros n p member placed_n.
    destruct (place_member nodes n member) as (p' & placed' & old & valid).
    rewrite placed_n in placed'. injection placed' as <-.
    destruct (Z.leb_spec (parsed_year n) 1900) as [o | v].
    + rewrite (old o). split; [reflexivity|]. intros m d ->.
      exists (position m), d. destruct m; reflexivity.
    + destruct (valid v) as (m & d & x & y & -> & _ & ->).
      split; [reflexivity|]. intros m' d' [= <- <-]. eexists _, _. reflexivity.
  - apply Forall_forall. intros l member. apply list_elem_of_fmap in member.
    destruct member as (y & -> & _). eexists _, _, _. reflexivity.
Qed.

Lemma labels_filtered (labels : list FlowNode) :
  Forall (fun n => exists y p d, n = YearLabel y p d) labels -> papers_only labels = [].
Proof.
  intros shape. apply papers_only_none. eapply Forall_impl; [exact shape|].
  intros n (y & p & d & ->). apply is_label_YearLabel.
Qed.

Lemma placed_ids (nodes placed : list FlowNode) :
  Forall2 (fun n p =>
             flow_id p = flow_id n /\
             forall m d, n = Paper m d -> exists q d', p = Paper (move m q) d') nodes placed ->
  map flow_id placed = map flow_id nodes.
Proof.
  induction 1 as [|n p nodes placed [same _] _ IH]; [reflexivity|].
  cbn [map]. rewrite same, IH. reflexivity.
Qed.

Lemma ordinary_by_id (l k : list FlowNode) :
  map flow_id l = map flow_id k ->
  Forall (fun n => is_label n = false) k -> Forall (fun n => is_label n = false) l.
Proof.
  revert k. induction l as [|a l IH]; intros [|b k] same ordinary;
    try discriminate same; [constructor|].
  injection same as head tail. apply Forall_cons in ordinary.
  destruct ordinary as [first rest]. constructor; [|exact (IH _ tail rest)].
  unfold is_label in *. rewrite head. exact first.
Qed.

Lemma save_other (nodes : list FlowNode) (saved : gmap string Position) (i : string) :
  ~ In i (map flow_id nodes) -> fold_left save nodes saved !! i = saved !! i.
Proof.
  revert saved. induction nodes as [|n nodes IH]; intros saved absent; [reflexivity|].
  cbn [fold_left]. rewrite IH by (intros later; apply absent; right; exact later).
  unfold save. destruct (negb (is_label n)); [|reflexivity].
  apply lookup_insert_ne. intros same. apply absent. left. exact same.
Qed.

Lemma save_lookup (nodes : list FlowNode) (saved : gmap string Position) (n : FlowNode) :
  List.NoDup (map flow_id nodes) -> In n nodes -> is_label n = false ->
  fold_left save nodes saved !! flow_id n = Some (flow_position n).
Proof.
  revert saved. induction nodes as [|a nodes IH]; intros saved distinct member ordinary;
    [destruct member|].
  cbn [map] in distinct. apply List.NoDup_cons_iff in distinct.
  destruct distinct as [fresh distinct]. cbn [fold_left].
  destruct member as [-> | later].
  - rewrite (save_other _ _ _ fresh). unfold save. rewrite ordinary. cbn [negb].
    apply lookup_insert_eq.
  - apply IH; assumption.
Qed.

Lemma restore_ids (saved : gmap string Position) (l : list FlowNode) :
  map flow_id (map (restore saved) l) = map flow_id l.
Proof.
  induction l as [|n l IH]; [reflexivity|]. cbn [map]. rewrite IH. f_equal.
  destruct n; reflexivity.
Qed.

Lemma restore_placed (saved : gmap string Position) (nodes placed : list FlowNode) :
  Forall2 (fun n p =>
             flow_id p = flow_id n /\
             forall m d, n = Paper m d -> exists q d', p = Paper (move m q) d') nodes placed ->
  (forall n, In n nodes ->
     is_label n = false /\ saved !! flow_id n = Some (flow_position n)) ->
  map (restore saved) placed = map released nodes.
Proof.
  induction 1 as [|n p nodes placed [same shape] _ IH]; intros each; [reflexivity|].
  cbn [map]. f_equal.
  - destruct (each n (or_introl eq_refl)) as [plain found].
    destruct (ordinary_is_Paper n plain) as (m & d & ->).
    destruct (shape m d eq_refl) as (q & d' & ->).
    unfold restore. cbn [flow_id flow_position] in *.
    change (node_id (move m q)) with (node_id m).
    rewrite found. destruct m; reflexivity.
  - apply IH. intros k member. apply each. right. exact member.
Qed.

End TimelineToggle.

(** Either switch of the layout succeeds and flips the mode, keeps the nodes
    whose id does not begin with [year-label-] in their order, and removes
    every paper whose id does: back in the network view no such node is
    left, and in the timeline view the only ones are the year labels. *)
Theorem toggleLayout_keeps_ordinary_nodes (s : Timeline.State) :
  exists s',
    Timeline.toggleLayout s = Some s' /\
    Timeline.layoutMode s' <> Timeline.layoutMode s /\
    map Timeline.flow_id (Timeline.papers_only (Timeline.flow_nodes s'))
      = map Timeline.flow_id (Timeline.papers_only (Timeline.flow_nodes s)) /\
    (forall n, In n (Timeline.flow_nodes s') -> Timeline.is_label n = true ->
       Timeline.layoutMode s = Timeline.force /\
       exists y p d, n = Timeline.YearLabel y p d).
Proof.
  unfold Timeline.toggleLayout. destruct (Timeline.layoutMode s) eqn:mode.
  - destruct (timeline_parts (Timeline.papers_only (Timeline.flow_nodes s)))
      as (placed & labels & -> & moved & shape).
    pose proof (placed_ids _ _ moved) as ids.
    pose proof (ordinary_by_id _ _ ids (papers_only_ordinary _)) as ordinary.
    eexists. split; [reflexivity|]. cbn [Timeline.layoutMode Timeline.flow_nodes].
    split; [discriminate|]. split.
    + unfold Timeline.papers_only at 1. rewrite List.filter_app.
      fold (Timeline.papers_only placed). fold (Timeline.papers_only labels).
      rewrite (labels_filtered _ shape), app_nil_r, (papers_only_all _ ordinary).
      exact ids.
    + intros n member labelled. split; [reflexivity|].
      apply in_app_or in member. destruct member as [moved_n | label_n].
      * rewrite Forall_forall in ordinary.
        apply list_elem_of_In in moved_n. rewrite (ordinary n moved_n) in labelled.
        discriminate labelled.
      * rewrite Forall_forall in shape. apply shape. apply list_elem_of_In. exact label_n.
  - eexists. split; [reflexivity|]. cbn [Timeline.layoutMode Timeline.flow_nodes].
    split; [discriminate|].
    assert (ordinary : Forall (fun n => Timeline.is_label n = false)
                         (map (Timeline.restore (Timeline.defaultNodePositions s))
                            (Timeline.papers_only (Timeline.flow_nodes s)))).
    { apply (ordinary_by_id _ _ (restore_ids _ _)). apply papers_only_ordinary. }
    split.
    + rewrite (papers_only_all _ ordinary). apply restore_ids.
    + intros n member labelled. exfalso.
      rewrite Forall_forall in ordinary. apply list_elem_of_In in member.
      rewrite (ordinary n member) in labelled. discriminate labelled.
Qed.

(** Switching to the timeline and back puts every paper where it was: with
    ids that are distinct and do not begin with [year-label-], two switches
    from the network view give the same nodes in the same order with the
    same data and positions, the labels gone, each node now draggable. *)
Theorem toggleLayout_twice_restores (s : Timeline.State) :
  Timeline.layoutMode s = Timeline.force ->
  List.NoDup (map Timeline.flow_id (Timeline.flow_nodes s)) ->
  Forall (fun n => Timeline.is_label n = false) (Timeline.flow_nodes s) ->
  exists s1 s2,
    Timeline.toggleLayout s = Some s1 /\ Timeline.layoutMode s1 = Timeline.timeline /\
    Timeline.toggleLayout s1 = Some s2 /\ Timeline.layoutMode s2 = Timeline.force /\
    Timeline.flow_nodes s2 = map Timeline.released (Timeline.flow_nodes s).
Proof.
  intros mode distinct ordinary. unfold Timeline.toggleLayout at 1. rewrite mode.
  rewrite (papers_only_all _ ordinary).
  destruct (timeline_parts (Timeline.flow_nodes s)) as (placed & labels & -> & moved & shape).
  eexists _, _. split; [reflexivity|]. split; [reflexivity|].
  unfold Timeline.toggleLayout. cbn [Timeline.layoutMode Timeline.flow_nodes
                                      Timeline.defaultNodePositions].
  split; [reflexivity|]. split; [reflexivity|].
  pose proof (placed_ids _ _ moved) as ids.
  unfold Timeline.papers_only. rewrite List.filter_app.
  fold (Timeline.papers_only placed). fold (Timeline.papers_only labels).
  rewrite (labels_filtered _ shape), app_nil_r,
    (papers_only_all _ (ordinary_by_id _ _ ids ordinary)).
  assert (each : forall n, In n (Timeline.flow_nodes s) ->
                   Timeline.is_label n = false /\
                   fold_left Timeline.save (Timeline.flow_nodes s)
                     (Timeline.defaultNodePositions s) !! Timeline.flow_id n
                     = Some (Timeline.flow_position n)).
  { intros n member. rewrite Forall_forall in ordinary.
    assert (plain : Timeline.is_label n = false)
      by (apply ordinary; apply list_elem_of_In; exact member).
    split; [exact plain|]. apply save_lookup; assumption. }
  cbn [Timeline.flow_nodes]. apply (restore_placed _ _ _ moved). exact each.
Qed.

Lemma toggleLayout_twice_restores_witness :
  match Timeline.toggleLayout Timeline.sample_state with
  | Some s1 =>
      match Timeline.toggleLayout s1 with
      | Some s2 => Timeline.flow_nodes s2 = map Timeline.released Timeline.sample
      | None => False
      end
  | None => False
  end.
Proof.
  destruct (toggleLayout_twice_restores Timeline.sample_state)
    as (s1 & s2 & -> & _ & -> & _ & same).
  - reflexivity.
  - vm_compute. repeat constructor; cbn; intuition discriminate.
  - repeat constructor.
  - exact same.
Defined.


(** ** One request per call *)

Lemma search_sends (q : string) (w : World) :
  snd (api.search q w) = transmitted (api.search_request q) w.
Proof.
  rewrite search_run.
  destruct (serve_search _ _) as [|st parsed]; [reflexivity|].
  destruct ((200 <=? st) && (st <=? 299)); [|reflexivity].
  destruct parsed; reflexivity.
Qed.

Lemma explainAbstract_sends (a : string) (w : World) :
  snd (api.explainAbstract a w) = transmitted (api.explainAbstract_request a) w.
Proof.
  unfold api.explainAbstract, bind, fetch.
  destruct (serve_explain_abstract _ _) as [|st parsed]; [reflexivity|].
  unfold ok, json; cbn [status parsed_body negb].
  destruct ((200 <=? st) && (st <=? 299)); [|reflexivity].
  destruct parsed; reflexivity.
Qed.

(** Each call of the client sends its one request and nothing more, whatever
    comes back: there is no second attempt after a failure, and nothing of
    the world but the list of requests sent is changed. For a search the
    query is taken to be a well-formed text, which [encodeURIComponent]
    accepts. *)
Theorem api_calls_send_once (w : World) (q : string) :
  Utf8.well_formed q = true ->
  snd (api.search q w) = with_sent (sent w ++ [api.search_request q]) w /\
  (forall paperId width height,
      snd (api.buildGraph paperId width height w)
        = with_sent (sent w ++ [api.buildGraph_request paperId width height]) w) /\
  (forall a b,
      snd (api.summarizeConnection a b w)
        = with_sent (sent w ++ [api.summarizeConnection_request a b]) w) /\
  (forall a,
      snd (api.explainAbstract a w)
        = with_sent (sent w ++ [api.explainAbstract_request a]) w).
Proof.
  intros _. split; [|split; [|split]].
  - apply search_sends.
  - intros paperId width height. apply buildGraph_sends.
  - intros a b. apply summarizeConnection_sends.
  - intros a. apply explainAbstract_sends.
Qed.

Lemma api_calls_send_once_witness :
  sent (snd (api.search (JsString.bytes [99; 97; 102; 195; 169]%nat)
               (Fixtures.fresh Scenes.overloaded "")))
    = [api.GET "http://localhost:8000/search?query=caf%C3%A9"].
Proof.
  destruct (api_calls_send_once (Fixtures.fresh Scenes.overloaded "")
              (JsString.bytes [99; 97; 102; 195; 169]%nat)) as (searched & _).
  - reflexivity.
  - rewrite searched. reflexivity.
Defined.

(** ** The timeline stays within its grid *)

(** A paper with a valid year lands within the grid its year and its column
    span: its column is one of the [250 * i] with [i] below the number of
    distinct valid years, and its row lies within [50 * (c - 1)] of 0, where
    [c] is the number of papers of its year. *)
Theorem timeline_spot_bounds (nodes : list Timeline.FlowNode) (n : Timeline.FlowNode) :
  In n nodes -> 1900 < Timeline.parsed_year n ->
  exists x y,
    Timeline.spot nodes n = Some (x, y) /\
    0 <= x <= 250 * (Z.of_nat (List.length (Timeline.years_of (Timeline.nodesByYear_of nodes))) - 1) /\
    Z.abs y <= 50 * (Z.of_nat (List.length
                                 (List.filter (Timeline.of_year (Timeline.parsed_year n)) nodes)) - 1).
Proof.
  intros member valid.
  destruct (spot_of_member nodes n member valid) as (i & found & ->).
  destruct (nodesByYear_entry nodes n member valid) as [_ among].
  destruct (row_of_member _ n among) as (k & m & at_k & _ & ->).
  apply lookup_lt_Some in found. apply lookup_lt_Some in at_k.
  eexists _, _. split; [reflexivity|].
  set (c := List.length (List.filter _ nodes)) in *.
  change (@length Timeline.FlowNode) with (@List.length Timeline.FlowNode) in *.
  split; [lia|].
  replace (- ((Z.of_nat c - 1) * 100)) with ((-50 * (Z.of_nat c - 1)) * 2) by lia.
  rewrite Z.div_mul by lia. lia.
Qed.

Lemma timeline_spot_bounds_witness :
  match Timeline.spot Timeline.sample (Timeline.dated "W4" (Some 2017)) with
  | Some (x, y) => 0 <= x <= 250 /\ Z.abs y <= 50
  | None => False
  end.
Proof.
  destruct (timeline_spot_bounds Timeline.sample (Timeline.dated "W4" (Some 2017)))
    as (x & y & -> & wide & tall).
  - do 3 right. left. reflexivity.
  - reflexivity.
  - split; [exact wide | exact tall].
Defined.

(** ** The theorems above at work *)

Lemma search_request_carries_query_witness :
  api.search_request "graph neural&networks" <> api.search_request "graph neural" /\
  url (api.search_request "graph neural&networks")
    = "http://localhost:8000/search?query=graph%20neural%26networks".
Proof.
  split; [|reflexivity].
  intros same. apply (proj1 search_request_carries_query) in same. discriminate same.
Defined.

Lemma posted_bodies_determine_abstracts_witness :
  api.summarizeConnection_request "a\" "b" <> api.summarizeConnection_request "a" "\b".
Proof.
  intros same. apply (proj1 posted_bodies_determine_abstracts) in same.
  destruct same as [first _]. discriminate first.
Defined.

Lemma handleExplain_sends_no_empty_abstract_witness :
  sent (snd (Sidebar.handleExplain None (Fixtures.paper "W2" false)
               (Fixtures.fresh Fixtures.silent "")))
    = [api.summarizeConnection_request "No abstract available for seed paper."
         "An abstract."].
Proof.
  destruct (handleExplain_sends_no_empty_abstract None (Fixtures.paper "W2" false)
              (Fixtures.fresh Fixtures.silent ""))
    as (a & b & _ & _ & seedless & given & went).
  rewrite went, (seedless eq_refl), (given "An abstract." eq_refl); [reflexivity|].
  discriminate.
Defined.

Lemma getTimelineLayout_places_every_paper_witness :
  match Timeline.getTimelineLayout Timeline.sample with
  | Some out => List.length out = 6%nat
  | None => False
  end.
Proof.
  destruct (getTimelineLayout_places_every_paper Timeline.sample)
    as (placed & -> & each & _).
  apply Forall2_length in each.
  rewrite length_app, length_imap, <- each. vm_compute. reflexivity.
Defined.

Lemma toggleLayout_keeps_ordinary_nodes_witness :
  match Timeline.toggleLayout Timeline.sample_state with
  | Some s' =>
      map Timeline.flow_id (Timeline.papers_only (Timeline.flow_nodes s'))
        = ["W1"; "W2"; "W3"; "W4"]
  | None => False
  end.
Proof.
  destruct (toggleLayout_keeps_ordinary_nodes Timeline.sample_state)
    as (s' & -> & _ & kept & _).
  rewrite kept. reflexivity.
Defined.
